(** * apple-notes-mcp: the tool gateway of [server.py]

    A shallow embedding of [src/apple_notes_mcp/server.py] and the
    properties of its specification.

    Conventions of the embedding.
    - A Python [str] is a [string] holding the UTF-8 encoding of the text.
      [replace], [split], [strip] and slicing are exact on it. [lower] and
      [repr] are exact for texts whose code points are below U+0100; they
      leave the other characters as they are, where Python lowers some of
      them and escapes the ones that cannot be printed. They enter the
      properties below only through the text of the search command and
      of the message of its failure.
    - [arguments] is a finite map from parameter names to strings: every
      property of every input schema has type "string".
    - [subprocess.run] is an oracle [spawn] over an abstract world: it
      yields the process it ran to completion, with a return code, a
      decoded standard output and a decoded standard error, or the error
      it ends with before that. It always comes back.
    - The decorator [@app.call_tool()] is modelled by [handler]: it turns
      what [call_tool] returns or raises into the result of the
      invocation.
    - [json.loads] is an oracle too; the values it yields are [pyval]s.
    - Tool handlers run in a state and exception monad: the state is the
      world plus the list of processes spawned so far. *)

From Stdlib Require Import ZArith Ascii String List Lia DecimalString.
From stdpp Require Import base option gmap strings list.

Local Open Scope string_scope.
Local Open Scope nat_scope.

Set Warnings "-register-all".

(** ** Characters the templates need but a literal cannot hold *)

Definition ch (n : nat) : string := String (ascii_of_nat n) EmptyString.
Definition dq : string := ch 34.   (* the double quote *)
Definition bs : string := ch 92.   (* the backslash *)
Definition nl : string := ch 10.   (* the line feed *)
Definition dq_char : ascii := ascii_of_nat 34.
Definition bs_char : ascii := ascii_of_nat 92.

(** ** Exceptions and results *)

(** The exceptions the gateway can meet. [CalledProcessError] carries what
    [subprocess.run(..., check=True)] stores in it; [JSONDecodeError]
    carries the text of its [str]. *)
Inductive exn : Type :=
| CalledProcessError (returncode : Z) (cmd : list string)
                     (output : string) (stderr : string)
| JSONDecodeError (message : string)
| KeyError (key : string)
| TypeError
| ValueError
| OSError.

(** What evaluating a Python expression or statement gives. *)
Inductive outcome (A : Type) : Type :=
| Returns (a : A)
| Raises (e : exn).

Arguments Returns {A} a.
Arguments Raises {A} e.

(** ** Python string primitives *)

Module Py.

(** [s.replace(c, new)] for a one-character [c]. *)
Fixpoint replace_char (c : ascii) (new : string) (s : string) : string :=
  match s with
  | EmptyString => EmptyString
  | String a s' =>
      if Ascii.eqb a c then new +:+ replace_char c new s'
      else String a (replace_char c new s')
  end.

(** Whitespace in the sense of [str.isspace], as UTF-8 sequences.
    One byte: U+0009..U+000D, U+001C..U+001F, U+0020. *)
Definition space1 (a : ascii) : bool :=
  let n := nat_of_ascii a in
  ((9 <=? n) && (n <=? 13)) || ((28 <=? n) && (n <=? 32)).

(** Two bytes: U+0085 and U+00A0. *)
Definition space2 (a b : ascii) : bool :=
  (nat_of_ascii a =? 194) &&
  ((nat_of_ascii b =? 133) || (nat_of_ascii b =? 160)).

(** Three bytes: U+1680, U+2000..U+200A, U+2028, U+2029, U+202F, U+205F,
    U+3000. *)
Definition space3 (a b c : ascii) : bool :=
  let x := nat_of_ascii a in
  let y := nat_of_ascii b in
  let z := nat_of_ascii c in
  ((x =? 225) && (y =? 154) && (z =? 128))
  || ((x =? 226) && (y =? 128) &&
      (((128 <=? z) && (z <=? 138)) || (z =? 168) || (z =? 169) || (z =? 175)))
  || ((x =? 226) && (y =? 129) && (z =? 159))
  || ((x =? 227) && (y =? 128) && (z =? 128)).

(** [s.lstrip()]. *)
Fixpoint lstrip (s : string) : string :=
  match s with
  | EmptyString => EmptyString
  | String a s1 =>
      if space1 a then lstrip s1
      else match s1 with
           | EmptyString => s
           | String b s2 =>
               if space2 a b then lstrip s2
               else match s2 with
                    | EmptyString => s
                    | String c s3 => if space3 a b c then lstrip s3 else s
                    end
           end
  end.

(** The same scan over the reversed text, where the bytes of a character
    arrive last byte first. *)
Fixpoint lstrip_rev (s : string) : string :=
  match s with
  | EmptyString => EmptyString
  | String a s1 =>
      if space1 a then lstrip_rev s1
      else match s1 with
           | EmptyString => s
           | String b s2 =>
               if space2 b a then lstrip_rev s2
               else match s2 with
                    | EmptyString => s
                    | String c s3 => if space3 c b a then lstrip_rev s3 else s
                    end
           end
  end.

Definition rstrip (s : string) : string :=
  String.rev (lstrip_rev (String.rev s)).

(** [s.strip()]. *)
Definition strip (s : string) : string := rstrip (lstrip s).

(** Whether a text holds the null character. *)
Fixpoint has_null (s : string) : bool :=
  match s with
  | EmptyString => false
  | String a s' => (nat_of_ascii a =? 0) || has_null s'
  end.

(** [bool(s)] of a string. *)
Definition nonempty (s : string) : bool :=
  match s with EmptyString => false | _ => true end.

(** [s.lower()]: A..Z, and U+00C0..U+00DE but U+00D7, which UTF-8 writes
    as 0xC3 followed by 0x80..0x9E. *)
Definition lower1 (a : ascii) : ascii :=
  let n := nat_of_ascii a in
  if (65 <=? n) && (n <=? 90) then ascii_of_nat (n + 32) else a.

Definition lower_latin (b : ascii) : ascii :=
  let n := nat_of_ascii b in
  if (128 <=? n) && (n <=? 158) && negb (n =? 151)
  then ascii_of_nat (n + 32) else b.

Fixpoint lower (s : string) : string :=
  match s with
  | EmptyString => EmptyString
  | String a s1 =>
      if nat_of_ascii a =? 195 then
        match s1 with
        | EmptyString => s
        | String b s2 => String a (String (lower_latin b) (lower s2))
        end
      else String (lower1 a) (lower s1)
  end.

(** A continuation byte of a UTF-8 sequence: 0x80..0xBF. *)
Definition continuation (a : ascii) : bool :=
  let n := nat_of_ascii a in (128 <=? n) && (n <=? 191).

(** [s[:n]]: the first [n] characters. *)
Fixpoint take_chars (n : nat) (s : string) : string :=
  match s with
  | EmptyString => EmptyString
  | String a s' =>
      if continuation a then String a (take_chars n s')
      else match n with
           | O => EmptyString
           | S k => String a (take_chars k s')
           end
  end.

(** [len(s)]: the number of characters. *)
Fixpoint len_chars (s : string) : nat :=
  match s with
  | EmptyString => O
  | String a s' =>
      if continuation a then len_chars s' else S (len_chars s')
  end.

(** [list(s)]: the characters of [s], one string each. *)
Fixpoint chars_aux (cur : string) (s : string) : list string :=
  match s with
  | EmptyString =>
      match cur with EmptyString => [] | _ => [cur] end
  | String a s' =>
      if continuation a then chars_aux (cur +:+ String a EmptyString) s'
      else match cur with
           | EmptyString => chars_aux (String a EmptyString) s'
           | _ => cur :: chars_aux (String a EmptyString) s'
           end
  end.

Definition chars (s : string) : list string := chars_aux EmptyString s.

(** [str(n)] of a non-negative and of any integer. *)
Definition str_nat (n : nat) : string :=
  NilZero.string_of_uint (Nat.to_uint n).

Definition str_Z (z : Z) : string :=
  NilZero.string_of_int (Z.to_int z).

(** [sub in s]. *)
Fixpoint contains (sub s : string) : bool :=
  String.prefix sub s ||
  match s with
  | EmptyString => false
  | String _ s' => contains sub s'
  end.

(** [s.split(sep)]: the pieces between the occurrences of [sep], found
    from the left and not overlapping. [skip] counts the characters of
    an occurrence still to pass over. *)
Fixpoint split_aux (sep : string) (skip : nat) (cur : string) (s : string)
  : list string :=
  match s with
  | EmptyString => [cur]
  | String a s' =>
      match skip with
      | S k => split_aux sep k cur s'
      | O =>
          if String.prefix sep s
          then cur :: split_aux sep (String.length sep - 1) EmptyString s'
          else split_aux sep 0 (cur +:+ String a EmptyString) s'
      end
  end.

(** An empty separator is a [ValueError]. *)
Definition split (s sep : string) : outcome (list string) :=
  match sep with
  | EmptyString => Raises ValueError
  | _ => Returns (split_aux sep 0 EmptyString s)
  end.

(** *** [repr] of a string and [str] of a list of strings *)

Definition hex_digit (n : nat) : string :=
  match n with
  | 0 => "0" | 1 => "1" | 2 => "2" | 3 => "3" | 4 => "4" | 5 => "5"
  | 6 => "6" | 7 => "7" | 8 => "8" | 9 => "9" | 10 => "a" | 11 => "b"
  | 12 => "c" | 13 => "d" | 14 => "e" | _ => "f"
  end.

Definition hex_escape (n : nat) : string :=
  bs +:+ "x" +:+ hex_digit (n / 16) +:+ hex_digit (n mod 16).

(** The quote [repr] picks: the double quote when the text has a single
    quote and no double quote, the single quote otherwise. *)
Definition repr_quote (s : string) : ascii :=
  if contains "'" s && negb (contains dq s) then dq_char
  else ascii_of_nat 39.

(** One ASCII character inside [repr]. *)
Definition repr_ascii (q a : ascii) : string :=
  let n := nat_of_ascii a in
  if Ascii.eqb a bs_char then bs +:+ bs
  else if Ascii.eqb a q then bs +:+ String q EmptyString
  else if n =? 9 then bs +:+ "t"
  else if n =? 10 then bs +:+ "n"
  else if n =? 13 then bs +:+ "r"
  else if (n <? 32) || (n =? 127) then hex_escape n
  else String a EmptyString.

(** The characters U+0080..U+00A0 and U+00AD are not printable: UTF-8
    writes them 0xC2 followed by the code point itself. *)
Definition unprintable_latin (b : ascii) : bool :=
  let n := nat_of_ascii b in
  ((128 <=? n) && (n <=? 160)) || (n =? 173).

Fixpoint repr_body (q : ascii) (s : string) : string :=
  match s with
  | EmptyString => EmptyString
  | String a s1 =>
      if nat_of_ascii a <? 128 then repr_ascii q a +:+ repr_body q s1
      else if nat_of_ascii a =? 194 then
        match s1 with
        | EmptyString => s
        | String b s2 =>
            if unprintable_latin b
            then hex_escape (nat_of_ascii b) +:+ repr_body q s2
            else String a (String b (repr_body q s2))
        end
      else String a (repr_body q s1)
  end.

(** [repr(s)]. *)
Definition repr (s : string) : string :=
  let q := repr_quote s in
  String q EmptyString +:+ repr_body q s +:+ String q EmptyString.

(** [sep.join(l)]. *)
Fixpoint join (sep : string) (l : list string) : string :=
  match l with
  | [] => EmptyString
  | [x] => x
  | x :: l' => x +:+ sep +:+ join sep l'
  end.

(** [str(l)] of a list of strings. *)
Definition str_list (l : list string) : string :=
  "[" +:+ join ", " (map repr l) +:+ "]".

End Py.

(** ** [subprocess]: completed processes and [CalledProcessError] *)

Record CompletedProcess : Type := {
  returncode : Z;
  stdout : string;
  stderr : string
}.

(** The ways [subprocess.run] ends without a completed process: a null
    byte in the command ([ValueError]), an interpreter that cannot be
    started ([OSError], as [FileNotFoundError]), output that cannot be
    decoded ([UnicodeDecodeError], a [ValueError]). *)
Inductive launch_error : Type :=
| EmbeddedNull
| CannotStart
| CannotDecode.

Definition launch_exn (e : launch_error) : exn :=
  match e with
  | EmbeddedNull => ValueError
  | CannotStart => OSError
  | CannotDecode => ValueError
  end.

(** What [subprocess.run] comes to, before [check=True] looks at the
    return code. *)
Inductive run_result : Type :=
| Completed (cp : CompletedProcess)
| NotCompleted (e : launch_error).

(** The names of [signal.Signals] on the platform of [osascript]. *)
Definition signal_name (n : Z) : option string :=
  match n with
  | 1 => Some "SIGHUP" | 2 => Some "SIGINT" | 3 => Some "SIGQUIT"
  | 4 => Some "SIGILL" | 5 => Some "SIGTRAP" | 6 => Some "SIGABRT"
  | 7 => Some "SIGEMT" | 8 => Some "SIGFPE" | 9 => Some "SIGKILL"
  | 10 => Some "SIGBUS" | 11 => Some "SIGSEGV" | 12 => Some "SIGSYS"
  | 13 => Some "SIGPIPE" | 14 => Some "SIGALRM" | 15 => Some "SIGTERM"
  | 16 => Some "SIGURG" | 17 => Some "SIGSTOP" | 18 => Some "SIGTSTP"
  | 19 => Some "SIGCONT" | 20 => Some "SIGCHLD" | 21 => Some "SIGTTIN"
  | 22 => Some "SIGTTOU" | 23 => Some "SIGIO" | 24 => Some "SIGXCPU"
  | 25 => Some "SIGXFSZ" | 26 => Some "SIGVTALRM" | 27 => Some "SIGPROF"
  | 28 => Some "SIGWINCH" | 29 => Some "SIGINFO" | 30 => Some "SIGUSR1"
  | 31 => Some "SIGUSR2"
  | _ => None
  end%Z.

(** [CalledProcessError.__str__]: built from the command and the return
    code alone; the captured output and diagnostics are not part of it. *)
Definition CalledProcessError_str (rc : Z) (cmd : list string) : string :=
  if (rc <? 0)%Z then
    match signal_name (- rc) with
    | Some sig =>
        "Command '" +:+ Py.str_list cmd +:+ "' died with <Signals." +:+ sig
        +:+ ": " +:+ Py.str_Z (- rc) +:+ ">."
    | None =>
        "Command '" +:+ Py.str_list cmd +:+ "' died with unknown signal "
        +:+ Py.str_Z (- rc) +:+ "."
    end
  else
    "Command '" +:+ Py.str_list cmd +:+ "' returned non-zero exit status "
    +:+ Py.str_Z rc +:+ ".".

(** [str(e)], for the two classes a handler of the gateway applies it to;
    the other classes carry no text here and their name stands in. *)
Definition exn_str (e : exn) : string :=
  match e with
  | CalledProcessError rc cmd _ _ => CalledProcessError_str rc cmd
  | JSONDecodeError msg => msg
  | KeyError k => Py.repr k
  | TypeError => "TypeError"
  | ValueError => "ValueError"
  | OSError => "OSError"
  end.

(** ** The values [json.loads] yields *)

(** A float is known by what the gateway can observe of it: its [repr]
    and whether it is non-zero. A dict keeps its items in order. *)
Inductive pyval : Type :=
| PNone
| PBool (b : bool)
| PInt (z : Z)
| PFloat (text : string) (nonzero : bool)
| PStr (s : string)
| PList (l : list pyval)
| PDict (items : list (string * pyval)).

(** [bool(v)]. *)
Definition truthy (v : pyval) : bool :=
  match v with
  | PNone => false
  | PBool b => b
  | PInt z => negb (z =? 0)%Z
  | PFloat _ nz => nz
  | PStr s => Py.nonempty s
  | PList l => match l with [] => false | _ => true end
  | PDict d => match d with [] => false | _ => true end
  end.

(** [len(v)]. *)
Definition py_len (v : pyval) : outcome nat :=
  match v with
  | PStr s => Returns (Py.len_chars s)
  | PList l => Returns (length l)
  | PDict d => Returns (length d)
  | _ => Raises TypeError
  end.

(** What [for x in v] goes through. *)
Definition py_iter (v : pyval) : outcome (list pyval) :=
  match v with
  | PStr s => Returns (map PStr (Py.chars s))
  | PList l => Returns l
  | PDict d => Returns (map (fun kv => PStr (fst kv)) d)
  | _ => Raises TypeError
  end.

Fixpoint assoc (k : string) (d : list (string * pyval)) : option pyval :=
  match d with
  | [] => None
  | (k', v) :: d' => if String.eqb k k' then Some v else assoc k d'
  end.

(** [v[k]] for a string key [k]. *)
Definition getitem (v : pyval) (k : string) : outcome pyval :=
  match v with
  | PDict d =>
      match assoc k d with
      | Some x => Returns x
      | None => Raises (KeyError k)
      end
  | _ => Raises TypeError
  end.

(** [v[:n]]. A dict has no slices (a [TypeError] up to Python 3.11, a
    [KeyError] since). *)
Definition slice_to (n : nat) (v : pyval) : outcome pyval :=
  match v with
  | PStr s => Returns (PStr (Py.take_chars n s))
  | PList l => Returns (PList (firstn n l))
  | _ => Raises TypeError
  end.

(** [repr(v)] and, below, [str(v)], which differ on strings only. *)
Fixpoint py_repr (v : pyval) : string :=
  match v with
  | PNone => "None"
  | PBool true => "True"
  | PBool false => "False"
  | PInt z => Py.str_Z z
  | PFloat t _ => t
  | PStr s => Py.repr s
  | PList l => "[" +:+ Py.join ", " (map py_repr l) +:+ "]"
  | PDict d =>
      "{" +:+ Py.join ", "
                (map (fun kv => Py.repr (fst kv) +:+ ": " +:+ py_repr (snd kv)) d)
      +:+ "}"
  end.

Definition py_str (v : pyval) : string :=
  match v with
  | PStr s => s
  | _ => py_repr v
  end.

(** ** [mcp.types]: text blocks and tool descriptors *)

Record TextContent : Type := {
  type : string;
  text : string
}.

Record Property : Type := {
  prop_type : string;
  prop_description : string
}.

(** An input schema; the key "required" may be absent. *)
Record InputSchema : Type := {
  schema_type : string;
  properties : list (string * Property);
  required : option (list string)
}.

Record Tool : Type := {
  name : string;
  description : string;
  inputSchema : InputSchema
}.

(** ** [list_tools]: the catalog *)

Definition string_property (d : string) : Property :=
  {| prop_type := "string"; prop_description := d |}.

Definition list_tools : list Tool :=
  [ {| name := "list_notes";
       description := "List all notes with their names, folders, and creation/modification dates";
       inputSchema :=
         {| schema_type := "object";
            properties :=
              [ ("folder", string_property "Optional: filter by folder name") ];
            required := None |} |};
    {| name := "search_notes";
       description := "Search notes by text in title or body";
       inputSchema :=
         {| schema_type := "object";
            properties :=
              [ ("query", string_property "Search query to find in note titles or content") ];
            required := Some ["query"] |} |};
    {| name := "read_note";
       description := "Read the full content of a specific note by name or ID";
       inputSchema :=
         {| schema_type := "object";
            properties :=
              [ ("name", string_property "The name/title of the note to read") ];
            required := Some ["name"] |} |};
    {| name := "create_note";
       description := "Create a new note with specified content";
       inputSchema :=
         {| schema_type := "object";
            properties :=
              [ ("name", string_property "The title of the new note");
                ("body", string_property "The content of the new note");
                ("folder", string_property "Optional: folder to create the note in (defaults to 'Notes')") ];
            required := Some ["name"; "body"] |} |};
    {| name := "edit_note";
       description := "Edit an existing note's content";
       inputSchema :=
         {| schema_type := "object";
            properties :=
              [ ("name", string_property "The name/title of the note to edit");
                ("body", string_property "The new content for the note") ];
            required := Some ["name"; "body"] |} |} ].

(** The parameters a descriptor requires, and the ones it only allows. *)
Definition required_params (t : Tool) : list string :=
  default [] (required (inputSchema t)).

Definition optional_params (t : Tool) : list string :=
  filter (fun p => negb (existsb (String.eqb p) (required_params t)))
         (map fst (properties (inputSchema t))).

Definition text_block (t : string) : TextContent :=
  {| type := "text"; text := t |}.

(** ** The state and exception monad of the handlers *)

(** The state: the world the interpreter acts on, and the commands given
    to [subprocess.run] so far, oldest first. *)
Record state (World : Type) : Type := {
  world : World;
  spawned : list (list string)
}.

Arguments world {World} s.
Arguments spawned {World} s.

Section Gateway.

Context {World : Type}.

(** Running a command in a world. *)
Variable spawn : World -> list string -> run_result * World.

(** [json.loads]. *)
Variable json_loads : string -> outcome pyval.

Definition M (A : Type) : Type := state World -> outcome A * state World.

Definition ret {A : Type} (a : A) : M A := fun st => (Returns a, st).

Definition raise {A : Type} (e : exn) : M A := fun st => (Raises e, st).

Definition lift {A : Type} (o : outcome A) : M A := fun st => (o, st).

Definition bind {A B : Type} (m : M A) (k : A -> M B) : M B :=
  fun st =>
    match m st with
    | (Returns a, st') => k a st'
    | (Raises e, st') => (Raises e, st')
    end.

(** [try: body / except <classes> as e: handler]. *)
Definition try_except {A : Type} (body : M A) (classes : exn -> bool)
           (handler : exn -> M A) : M A :=
  fun st =>
    match body st with
    | (Returns a, st') => (Returns a, st')
    | (Raises e, st') =>
        if classes e then handler e st' else (Raises e, st')
    end.

Notation "x <- m ;; k" := (bind m (fun x => k))
  (at level 100, m at next level, right associativity).

Definition is_CalledProcessError (e : exn) : bool :=
  match e with CalledProcessError _ _ _ _ => true | _ => false end.

Definition is_JSONDecodeError (e : exn) : bool :=
  match e with JSONDecodeError _ => true | _ => false end.

(** [e.stderr] of a [CalledProcessError]. *)
Definition exn_stderr (e : exn) : string :=
  match e with
  | CalledProcessError _ _ _ err => err
  | _ => EmptyString
  end.

(** [subprocess.run(args, capture_output=True, text=True, check=True)]:
    one run; its own errors are raised as they are, and a return code
    other than zero raises [CalledProcessError]. *)
Definition subprocess_run (args : list string) : M CompletedProcess :=
  fun st =>
    let (r, w') := spawn (world st) args in
    let st' := {| world := w'; spawned := (spawned st ++ [args])%list |} in
    match r with
    | NotCompleted e => (Raises (launch_exn e), st')
    | Completed cp =>
        if (returncode cp =? 0)%Z then (Returns cp, st')
        else (Raises (CalledProcessError (returncode cp) args
                                         (stdout cp) (stderr cp)), st')
    end.

Definition run_applescript (script : string) : M string :=
  result <- subprocess_run ["osascript"; "-e"; script] ;;
  ret (Py.strip (stdout result)).

Definition run_jxa (script : string) : M string :=
  result <- subprocess_run ["osascript"; "-l"; "JavaScript"; "-e"; script] ;;
  ret (Py.strip (stdout result)).

(** [arguments[key]]. *)
Definition subscript (arguments : gmap string string) (key : string)
  : M string :=
  match arguments !! key with
  | Some v => ret v
  | None => raise (KeyError key)
  end.

(** [arguments.get(key, dflt)]. *)
Definition get (arguments : gmap string string) (key dflt : string)
  : string :=
  default dflt (arguments !! key).

(** *** The script templates of [call_tool]

    A Python triple-quoted literal starts with a line feed and ends with
    the indentation of its closing quotes. *)

Definition script_lines (l : list string) : string :=
  Py.join nl (EmptyString :: l ++ ["        "])%list.

Definition list_notes_script : string :=
  script_lines
    [ "        tell application " +:+ dq +:+ "Notes" +:+ dq;
      "            set notesList to {}";
      "            set allNotes to every note";
      "            repeat with aNote in allNotes";
      "                set noteInfo to {|name|:name of aNote, |folder|:name of container of aNote, |creationDate|:creation date of aNote as string, |modificationDate|:modification date of aNote as string}";
      "                set end of notesList to noteInfo";
      "            end repeat";
      "            return notesList";
      "        end tell" ].

Definition search_notes_script (query : string) : string :=
  script_lines
    [ "        const notes = Application('Notes');";
      "        const allNotes = notes.notes();";
      "        const results = [];";
      "";
      "        for (let note of allNotes) {";
      "            const name = note.name();";
      "            const body = note.body();";
      "";
      "            if (name.toLowerCase().includes('" +:+ Py.lower query +:+ "') ||";
      "                body.toLowerCase().includes('" +:+ Py.lower query +:+ "')) {";
      "                results.push({";
      "                    name: name,";
      "                    folder: note.container().name(),";
      "                    preview: body.substring(0, 200)";
      "                });";
      "            }";
      "        }";
      "";
      "        JSON.stringify(results);" ].

Definition read_note_script (note_name : string) : string :=
  script_lines
    [ "        tell application " +:+ dq +:+ "Notes" +:+ dq;
      "            set matchingNotes to (every note whose name is " +:+ dq +:+ note_name +:+ dq +:+ ")";
      "            if (count of matchingNotes) > 0 then";
      "                set theNote to item 1 of matchingNotes";
      "                return body of theNote";
      "            else";
      "                return " +:+ dq +:+ "Note not found" +:+ dq;
      "            end if";
      "        end tell" ].

Definition create_note_script
           (folder_name note_name_escaped note_body_escaped : string)
  : string :=
  script_lines
    [ "        tell application " +:+ dq +:+ "Notes" +:+ dq;
      "            tell account " +:+ dq +:+ "iCloud" +:+ dq;
      "                -- Try to find the folder, create if it doesn't exist";
      "                set targetFolder to folder " +:+ dq +:+ folder_name +:+ dq;
      "";
      "                -- Create the note";
      "                set newNote to make new note at targetFolder with properties {name:" +:+ dq +:+ note_name_escaped +:+ dq +:+ ", body:" +:+ dq +:+ note_body_escaped +:+ dq +:+ "}";
      "                return name of newNote";
      "            end tell";
      "        end tell" ].

Definition edit_note_script (note_name note_body_escaped : string)
  : string :=
  script_lines
    [ "        tell application " +:+ dq +:+ "Notes" +:+ dq;
      "            set matchingNotes to (every note whose name is " +:+ dq +:+ note_name +:+ dq +:+ ")";
      "            if (count of matchingNotes) > 0 then";
      "                set theNote to item 1 of matchingNotes";
      "                set body of theNote to " +:+ dq +:+ note_body_escaped +:+ dq;
      "                return " +:+ dq +:+ "Note updated: " +:+ dq +:+ " & name of theNote";
      "            else";
      "                return " +:+ dq +:+ "Note not found" +:+ dq;
      "            end if";
      "        end tell" ].

(** [s.replace('"', '\\"')]. *)
Definition escape_quotes (s : string) : string :=
  Py.replace_char dq_char (bs +:+ dq) s.

(** *** [call_tool] *)

(** The loop of the [list_notes] branch over the pieces of the output. *)
Definition collect_notes (lines : list string) : list string :=
  fold_left
    (fun notes line =>
       if Py.nonempty (Py.strip line) then (notes ++ [Py.strip line])%list
       else notes)
    lines [].

(** The bytes of the three characters that start each line of a search
    result in the source: U+00E2, U+20AC, U+00A2. *)
Definition bullet : string :=
  ch 195 +:+ ch 162 +:+ ch 226 +:+ ch 130 +:+ ch 172 +:+ ch 194 +:+ ch 162.

(** One turn of the loop of the [search_notes] branch. *)
Definition format_match (formatted : string) (m : pyval) : M string :=
  n <- lift (getitem m "name") ;;
  f <- lift (getitem m "folder") ;;
  let formatted :=
    formatted +:+ bullet +:+ " " +:+ py_str n +:+ " (in " +:+ py_str f
    +:+ ")" +:+ nl in
  p <- lift (getitem m "preview") ;;
  p100 <- lift (slice_to 100 p) ;;
  ret (formatted +:+ "  Preview: " +:+ py_str p100 +:+ "..." +:+ nl +:+ nl).

Fixpoint format_matches (formatted : string) (ms : list pyval) : M string :=
  match ms with
  | [] => ret formatted
  | m :: ms' =>
      formatted' <- format_match formatted m ;;
      format_matches formatted' ms'
  end.

Definition call_tool (name : string) (arguments : gmap string string)
  : M (list TextContent) :=
  if String.eqb name "list_notes" then
    let folder_filter := get arguments "folder" "" in
    let script := list_notes_script in
    try_except
      (result <- run_applescript script ;;
       notes <- (if Py.nonempty result then
                   lines <- lift (Py.split result ", |name|:") ;;
                   ret (collect_notes lines)
                 else ret []) ;;
       let result_text :=
         if Py.nonempty folder_filter
         then "Notes in folder '" +:+ folder_filter +:+ "':" +:+ nl +:+ result
         else "All notes:" +:+ nl +:+ result in
       ret [text_block result_text])
      is_CalledProcessError
      (fun e => ret [text_block ("Error listing notes: " +:+ exn_stderr e)])
  else if String.eqb name "search_notes" then
    query <- subscript arguments "query" ;;
    let script := search_notes_script query in
    try_except
      (result <- run_jxa script ;;
       matches <- (if Py.nonempty result then lift (json_loads result)
                   else ret (PList [])) ;;
       if negb (truthy matches) then
         ret [text_block ("No notes found matching '" +:+ query +:+ "'")]
       else
         n <- lift (py_len matches) ;;
         let formatted :=
           "Found " +:+ Py.str_nat n +:+ " note(s) matching '" +:+ query
           +:+ "':" +:+ nl +:+ nl in
         items <- lift (py_iter matches) ;;
         formatted <- format_matches formatted items ;;
         ret [text_block formatted])
      (fun e => is_CalledProcessError e || is_JSONDecodeError e)
      (fun e => ret [text_block ("Error searching notes: " +:+ exn_str e)])
  else if String.eqb name "read_note" then
    note_name <- subscript arguments "name" ;;
    let script := read_note_script note_name in
    try_except
      (result <- run_applescript script ;;
       ret [text_block ("Note: " +:+ note_name +:+ nl +:+ nl +:+ result)])
      is_CalledProcessError
      (fun e => ret [text_block ("Error reading note: " +:+ exn_stderr e)])
  else if String.eqb name "create_note" then
    note_name <- subscript arguments "name" ;;
    note_body <- subscript arguments "body" ;;
    let folder_name := get arguments "folder" "Notes" in
    let note_name_escaped := escape_quotes note_name in
    let note_body_escaped := escape_quotes note_body in
    let script :=
      create_note_script folder_name note_name_escaped note_body_escaped in
    try_except
      (result <- run_applescript script ;;
       ret [text_block ("Successfully created note: " +:+ result)])
      is_CalledProcessError
      (fun e => ret [text_block ("Error creating note: " +:+ exn_stderr e)])
  else if String.eqb name "edit_note" then
    note_name <- subscript arguments "name" ;;
    note_body <- subscript arguments "body" ;;
    let note_body_escaped := escape_quotes note_body in
    let script := edit_note_script note_name note_body_escaped in
    try_except
      (result <- run_applescript script ;;
       ret [text_block result])
      is_CalledProcessError
      (fun e => ret [text_block ("Error editing note: " +:+ exn_stderr e)])
  else
    ret [text_block ("Unknown tool: " +:+ name)].

(** *** Notions the properties are stated with *)

(** The state after one more process. *)
Definition after (st : state World) (w' : World) (args : list string)
  : state World :=
  {| world := w'; spawned := (spawned st ++ [args])%list |}.

(** What a runner gives for a completed process. *)
Definition completed (args : list string) (st : state World)
           (cp : CompletedProcess) (w' : World)
  : outcome string * state World :=
  if (returncode cp =? 0)%Z
  then (Returns (Py.strip (stdout cp)), after st w' args)
  else (Raises (CalledProcessError (returncode cp) args
                                   (stdout cp) (stderr cp)),
        after st w' args).

(** What a runner gives for a run. *)
Definition ended (args : list string) (st : state World)
           (r : run_result) (w' : World)
  : outcome string * state World :=
  match r with
  | Completed cp => completed args st cp w'
  | NotCompleted e => (Raises (launch_exn e), after st w' args)
  end.

(** What a branch that runs one script answers: one text block made from
    the completed process, or the error the run ends with. *)
Definition answer (args : list string) (st : state World)
           (text : CompletedProcess -> string)
           (r : run_result) (w' : World)
  : outcome (list TextContent) * state World :=
  match r with
  | Completed cp => (Returns [text_block (text cp)], after st w' args)
  | NotCompleted e => (Raises (launch_exn e), after st w' args)
  end.

(** The header line of a [list_notes] response. *)
Definition list_notes_header (arguments : gmap string string) : string :=
  if Py.nonempty (get arguments "folder" "")
  then "Notes in folder '" +:+ get arguments "folder" "" +:+ "':"
  else "All notes:".

(** The commands of the branches. *)
Definition applescript_command (script : string) : list string :=
  ["osascript"; "-e"; script].

Definition search_command (query : string) : list string :=
  ["osascript"; "-l"; "JavaScript"; "-e"; search_notes_script query].

(** The script [create_note] renders from its arguments. *)
Definition create_note_rendered (arguments : gmap string string)
           (note_name note_body : string) : string :=
  create_note_script (get arguments "folder" "Notes")
                     (escape_quotes note_name) (escape_quotes note_body).

End Gateway.

(** ** The handler [@app.call_tool()] registers

    The framework calls [call_tool] for a request and makes the result of
    the invocation from what it returns or raises: the blocks returned,
    or one text block with the text of the exception and the error flag.
    Where the framework first checks the arguments against the input
    schema, a rejection is answered the same way, and [call_tool] is not
    called. The two oracles are that check and [str(e)]. *)

Record CallToolResult : Type := {
  content : list TextContent;
  isError : bool
}.

Definition handler {World : Type}
           (spawn : World -> list string -> run_result * World)
           (json_loads : string -> outcome pyval)
           (validate : string -> gmap string string -> option string)
           (describe : exn -> string)
           (name : string) (arguments : gmap string string)
           (st : state World) : CallToolResult * state World :=
  match validate name arguments with
  | Some message =>
      ({| content := [text_block message]; isError := true |}, st)
  | None =>
      match call_tool spawn json_loads name arguments st with
      | (Returns results, st') =>
          ({| content := results; isError := false |}, st')
      | (Raises e, st') =>
          ({| content := [text_block (describe e)]; isError := true |}, st')
      end
  end.

(** No check of the arguments. *)
Definition unchecked (name : string) (arguments : gmap string string)
  : option string := None.

(** ** The scripts, read as programs over the notes application

    The two AppleScript templates whose behaviour the specification
    describes are embedded here as functions over a model of the
    application's objects, and a script text is tied to them by reading
    back the string literals it holds. *)

Module Notes.

Record note : Type := {
  title : string;
  body : string
}.

Record folder : Type := {
  folder_name : string;
  notes : list note
}.

Record account : Type := {
  account_name : string;
  folders : list folder
}.

(** The application: its accounts, in order. *)
Definition store : Type := list account.

(** [every note]. *)
Definition every_note (s : store) : list note :=
  flat_map (fun a => flat_map notes (folders a)) s.

(** [account "..."] and [folder "..."] of an account. *)
Definition find_account (a : string) (s : store) : option account :=
  List.find (fun x => String.eqb (account_name x) a) s.

Definition find_folder (f : string) (a : account) : option folder :=
  List.find (fun x => String.eqb (folder_name x) f) (folders a).

(** What a script gives: the value it returns, or an error. *)
Inductive script_result : Type :=
| Value (v : string)
| Failure.

(** The script of [read_note]:
      set matchingNotes to (every note whose name is "...")
      if (count of matchingNotes) > 0 then
          set theNote to item 1 of matchingNotes
          return body of theNote
      else
          return "Note not found"
    with [is] read as equality of the texts. *)
Definition read_note_applescript (note_name : string) (s : store)
  : script_result * store :=
  let matchingNotes :=
    List.filter (fun n => String.eqb (title n) note_name) (every_note s) in
  match matchingNotes with
  | theNote :: _ => (Value (body theNote), s)
  | [] => (Value "Note not found", s)
  end.

(** Adding a note to the first folder of that name. *)
Fixpoint add_to_folder (f : string) (n : note) (fs : list folder)
  : list folder :=
  match fs with
  | [] => []
  | x :: fs' =>
      if String.eqb (folder_name x) f
      then {| folder_name := folder_name x; notes := (notes x ++ [n])%list |}
           :: fs'
      else x :: add_to_folder f n fs'
  end.

Fixpoint add_to_account (a f : string) (n : note) (s : store) : store :=
  match s with
  | [] => []
  | x :: s' =>
      if String.eqb (account_name x) a
      then {| account_name := account_name x;
              folders := add_to_folder f n (folders x) |} :: s'
      else x :: add_to_account a f n s'
  end.

(** The script of [create_note]:
      tell account "iCloud"
          set targetFolder to folder "..."
          set newNote to make new note at targetFolder
                         with properties {name:"...", body:"..."}
          return name of newNote
    Referring to an account or a folder that does not exist is an error.
    [naming] is the name the application gives a note made with these
    properties. *)
Definition create_note_applescript (naming : string -> string -> string)
           (folder_name note_name note_body : string) (s : store)
  : script_result * store :=
  match find_account "iCloud" s with
  | None => (Failure, s)
  | Some icloud =>
      match find_folder folder_name icloud with
      | None => (Failure, s)
      | Some targetFolder =>
          let newNote :=
            {| title := naming note_name note_body; body := note_body |} in
          (Value (title newNote),
           add_to_account "iCloud" folder_name newNote s)
      end
  end.

(** Whether the account "iCloud" has a folder of this name. *)
Definition has_folder (f : string) (s : store) : bool :=
  match find_account "iCloud" s with
  | None => false
  | Some icloud =>
      match find_folder f icloud with
      | None => false
      | Some _ => true
      end
  end.

(** *** String literals of the declarative dialect *)

(** The character a backslash escape stands for. *)
Definition unescape (a : ascii) : option ascii :=
  if Ascii.eqb a dq_char then Some dq_char
  else if Ascii.eqb a bs_char then Some bs_char
  else if Ascii.eqb a "n"%char then Some (ascii_of_nat 10)
  else if Ascii.eqb a "r"%char then Some (ascii_of_nat 13)
  else if Ascii.eqb a "t"%char then Some (ascii_of_nat 9)
  else None.

(** Reading a literal from just after its opening quote: the text it
    denotes and what follows its closing quote. *)
Fixpoint literal (s : string) : option (string * string) :=
  match s with
  | EmptyString => None
  | String a s1 =>
      if Ascii.eqb a dq_char then Some (EmptyString, s1)
      else if Ascii.eqb a bs_char then
        match s1 with
        | EmptyString => None
        | String b s2 =>
            match unescape b, literal s2 with
            | Some c, Some (v, rest) => Some (String c v, rest)
            | _, _ => None
            end
        end
      else
        match literal s1 with
        | Some (v, rest) => Some (String a v, rest)
        | None => None
        end
  end.

(** [s] without its prefix [p]. *)
Fixpoint strip_prefix (p s : string) : option string :=
  match p, s with
  | EmptyString, _ => Some s
  | String a p', String b s' =>
      if Ascii.eqb a b then strip_prefix p' s' else None
  | String _ _, EmptyString => None
  end.

(** A shape is the fixed text of a template around its literals: each
    piece but the last ends with the opening quote of a literal. Matching
    a script against a shape gives the texts of the literals. *)
Fixpoint match_shape (pieces : list string) (s : string)
  : option (list string) :=
  match pieces with
  | [] => None
  | [last] => if String.eqb s last then Some [] else None
  | p :: rest =>
      match strip_prefix p s with
      | None => None
      | Some s1 =>
          match literal s1 with
          | None => None
          | Some (v, s2) =>
              match match_shape rest s2 with
              | None => None
              | Some vs => Some (v :: vs)
              end
          end
      end
  end.

(** The template of [read_note] up to the opening quote of its literal,
    and from after the closing quote. *)
Definition read_note_before : string :=
  Py.join nl
    [ EmptyString;
      "        tell application " +:+ dq +:+ "Notes" +:+ dq;
      "            set matchingNotes to (every note whose name is " +:+ dq ].

Definition read_note_after : string :=
  Py.join nl
    [ ")";
      "            if (count of matchingNotes) > 0 then";
      "                set theNote to item 1 of matchingNotes";
      "                return body of theNote";
      "            else";
      "                return " +:+ dq +:+ "Note not found" +:+ dq;
      "            end if";
      "        end tell";
      "        " ].

Definition read_note_shape : list string :=
  [ read_note_before; read_note_after ].

Definition create_note_shape : list string :=
  [ Py.join nl
      [ EmptyString;
        "        tell application " +:+ dq +:+ "Notes" +:+ dq;
        "            tell account " +:+ dq +:+ "iCloud" +:+ dq;
        "                -- Try to find the folder, create if it doesn't exist";
        "                set targetFolder to folder " +:+ dq ];
    Py.join nl
      [ EmptyString;
        EmptyString;
        "                -- Create the note";
        "                set newNote to make new note at targetFolder with properties {name:" +:+ dq ];
    ", body:" +:+ dq;
    Py.join nl
      [ "}";
        "                return name of newNote";
        "            end tell";
        "        end tell";
        "        " ] ].

(** Running a script of one of the two shapes. *)
Definition run_script (naming : string -> string -> string)
           (script : string) (s : store) : option (script_result * store) :=
  match match_shape read_note_shape script with
  | Some [note_name] => Some (read_note_applescript note_name s)
  | _ =>
      match match_shape create_note_shape script with
      | Some [folder_name; note_name; note_body] =>
          Some (create_note_applescript naming folder_name
                                        note_name note_body s)
      | _ => None
      end
  end.

(** A text a literal can hold as it is: no quote, no backslash. *)
Fixpoint plain (s : string) : bool :=
  match s with
  | EmptyString => true
  | String a s' =>
      negb (Ascii.eqb a dq_char) && negb (Ascii.eqb a bs_char) && plain s'
  end.

(** A text without backslash. *)
Fixpoint no_backslash (s : string) : bool :=
  match s with
  | EmptyString => true
  | String a s' => negb (Ascii.eqb a bs_char) && no_backslash s'
  end.

End Notes.

(** The interpreter agrees with the reading of the scripts above: run on
    a script of one of the two shapes, in a world whose application is
    [view w], the process ends with status zero and prints the value the
    script returns, or ends with another status when the script fails, and
    leaves the application as the script does. *)
Definition agrees {World : Type}
           (spawn : World -> list string -> run_result * World)
           (view : World -> Notes.store)
           (naming : string -> string -> string)
           (w : World) (script : string) : Prop :=
  match Notes.run_script naming script (view w) with
  | None => True
  | Some (r, s') =>
      match spawn w ["osascript"; "-e"; script] with
      | (Completed cp, w') =>
          view w' = s' /\
          match r with
          | Notes.Value v =>
              returncode cp = 0%Z /\ Py.strip (stdout cp) = Py.strip v
          | Notes.Failure => returncode cp <> 0%Z
          end
      | (NotCompleted _, _) => False
      end
  end.

(** ** Invocations the handlers are written for *)

(** The parameters the catalog requires for a tool name. *)
Definition required_of (tool : string) : list string :=
  flat_map (fun t => if String.eqb (name t) tool then required_params t
                     else [])
           list_tools.

(** The arguments hold every parameter the catalog requires for the
    tool. *)
Definition supplies_required (tool : string)
           (arguments : gmap string string) : Prop :=
  Forall (fun p => is_Some (arguments !! p)) (required_of tool).

(** A record of a search result: it has a name, a folder, and a preview
    that can be cut. *)
Definition is_record (m : pyval) : bool :=
  match getitem m "name", getitem m "folder", getitem m "preview" with
  | Returns _, Returns _, Returns p =>
      match slice_to 100 p with
      | Returns _ => true
      | Raises _ => false
      end
  | _, _, _ => false
  end.

(** ** Sample environments *)

Module Sample.

(** An interpreter that fails whatever it is given. *)
Definition failing_spawn (w : unit) (args : list string)
  : run_result * unit :=
  (Completed {| returncode := 1;
                stdout := EmptyString;
                stderr := "execution error: Notes got an error" |}, w).

(** An interpreter that finds nothing. *)
Definition empty_spawn (w : unit) (args : list string)
  : run_result * unit :=
  (Completed {| returncode := 0; stdout := "[]" +:+ nl;
                stderr := EmptyString |}, w).

(** A decoder that knows the empty array. *)
Definition decode (s : string) : outcome pyval :=
  if String.eqb s "[]" then Returns (PList [])
  else Raises (JSONDecodeError "Expecting value: line 1 column 1 (char 0)").

Definition start {World : Type} (w : World) : state World :=
  {| world := w; spawned := [] |}.

(** The application keeps the name it is given. *)
Definition naming (note_name note_body : string) : string := note_name.

(** An interpreter over the model of the application. A command with a
    null byte in it is not run. *)
Definition notes_spawn (s : Notes.store) (args : list string)
  : run_result * Notes.store :=
  if existsb Py.has_null args then (NotCompleted EmbeddedNull, s)
  else
    match args with
    | [_; _; script] =>
        match Notes.run_script naming script s with
        | Some (Notes.Value v, s') =>
            (Completed {| returncode := 0; stdout := v +:+ nl;
                          stderr := EmptyString |}, s')
        | Some (Notes.Failure, s') =>
            (Completed {| returncode := 1;
                          stdout := EmptyString;
                          stderr := "execution error: Notes got an error" |},
             s')
        | None =>
            (Completed {| returncode := 1;
                          stdout := EmptyString;
                          stderr := "syntax error" |}, s)
        end
    | _ =>
        (Completed {| returncode := 1; stdout := EmptyString;
                      stderr := "usage" |}, s)
    end.

(** One account, two folders, two notes of the same name. *)
Definition library : Notes.store :=
  [ {| Notes.account_name := "iCloud";
       Notes.folders :=
         [ {| Notes.folder_name := "Notes";
              Notes.notes :=
                [ {| Notes.title := "Groceries"; Notes.body := "milk" |};
                  {| Notes.title := "Ideas"; Notes.body := "first" |} ] |};
           {| Notes.folder_name := "Work";
              Notes.notes :=
                [ {| Notes.title := "Ideas"; Notes.body := "second" |} ] |} ]
    |} ].

(** A name with a quote in it. *)
Definition quoted_name : string := "A" +:+ dq +:+ "B".

(** A body that ends with a backslash, and a name with a null character
    in it. *)
Definition path_body : string := "C:" +:+ bs.

Definition null_name : string := "a" +:+ ch 0 +:+ "b".

(** An application with a folder of the quoted name. *)
Definition quoted_library : Notes.store :=
  [ {| Notes.account_name := "iCloud";
       Notes.folders :=
         [ {| Notes.folder_name := "Notes"; Notes.notes := [] |};
           {| Notes.folder_name := quoted_name; Notes.notes := [] |} ] |} ].

End Sample.

(** ** Notions for the rest of the gateway *)

(** Two argument maps that hold the same values for some parameters. *)
Definition agree_on (params : list string)
           (arguments1 arguments2 : gmap string string) : Prop :=
  Forall (fun p => arguments1 !! p = arguments2 !! p) params.

(** The parameters the catalog declares for a tool name. *)
Definition declared_of (tool : string) : list string :=
  flat_map (fun t => if String.eqb (name t) tool
                     then map fst (properties (inputSchema t))
                     else [])
           list_tools.

(** The command of the JavaScript runner. *)
Definition jxa_command (script : string) : list string :=
  ["osascript"; "-l"; "JavaScript"; "-e"; script].

(** A search result whose three fields are texts. *)
Record found : Type := {
  found_name : string;
  found_folder : string;
  found_preview : string
}.

(** A decoded value holds such a result. *)
Definition holds (m : pyval) (r : found) : Prop :=
  getitem m "name" = Returns (PStr (found_name r))
  /\ getitem m "folder" = Returns (PStr (found_folder r))
  /\ getitem m "preview" = Returns (PStr (found_preview r)).

(** The two lines the response gives a result. *)
Definition found_lines (r : found) : string :=
  bullet +:+ " " +:+ found_name r +:+ " (in " +:+ found_folder r +:+ ")"
  +:+ nl +:+ "  Preview: " +:+ Py.take_chars 100 (found_preview r) +:+ "..."
  +:+ nl +:+ nl.

(** The whole text for a query and its results. *)
Definition found_text (query : string) (rs : list found) : string :=
  "Found " +:+ Py.str_nat (length rs) +:+ " note(s) matching '" +:+ query
  +:+ "':" +:+ nl +:+ nl +:+ fold_right (fun r t => found_lines r +:+ t)
                                         EmptyString rs.

Module More.

(** An interpreter whose output is no JSON. *)
Definition garbled_spawn (w : unit) (args : list string)
  : run_result * unit :=
  (Completed {| returncode := 0; stdout := "oops" +:+ nl;
                stderr := EmptyString |}, w).

(** An interpreter that prints one result, and a decoder that knows it. *)
Definition one_result : string :=
  "[{" +:+ dq +:+ "name" +:+ dq +:+ ":" +:+ dq +:+ "Ideas" +:+ dq +:+ ","
  +:+ dq +:+ "folder" +:+ dq +:+ ":" +:+ dq +:+ "Work" +:+ dq +:+ ","
  +:+ dq +:+ "preview" +:+ dq +:+ ":" +:+ dq +:+ "second" +:+ dq +:+ "}]".

Definition one_spawn (w : unit) (args : list string)
  : run_result * unit :=
  (Completed {| returncode := 0; stdout := one_result +:+ nl;
                stderr := EmptyString |}, w).

Definition one_decode (s : string) : outcome pyval :=
  if String.eqb s one_result
  then Returns (PList [PDict [("name", PStr "Ideas");
                              ("folder", PStr "Work");
                              ("preview", PStr "second")]])
  else Raises (JSONDecodeError "Expecting value: line 1 column 1 (char 0)").

(** A decoder that yields a list with a number in it. *)
Definition number_decode (s : string) : outcome pyval :=
  Returns (PList [PInt 1]).

End More.

(** ** The script of [edit_note], read as a program *)

Module Edit.

(** The template of [edit_note] around its two literals. *)
Definition edit_note_before : string :=
  Py.join nl
    [ EmptyString;
      "        tell application " +:+ dq +:+ "Notes" +:+ dq;
      "            set matchingNotes to (every note whose name is " +:+ dq ].

Definition edit_note_middle : string :=
  Py.join nl
    [ ")";
      "            if (count of matchingNotes) > 0 then";
      "                set theNote to item 1 of matchingNotes";
      "                set body of theNote to " +:+ dq ].

Definition edit_note_after : string :=
  Py.join nl
    [ EmptyString;
      "                return " +:+ dq +:+ "Note updated: " +:+ dq
        +:+ " & name of theNote";
      "            else";
      "                return " +:+ dq +:+ "Note not found" +:+ dq;
      "            end if";
      "        end tell";
      "        " ].

Definition edit_note_shape : list string :=
  [ edit_note_before; edit_note_middle; edit_note_after ].

(** [set body of theNote to ...] for the first note of that name, among
    notes, among the folders of an account, among accounts. *)
Fixpoint set_first (note_name note_body : string) (ns : list Notes.note)
  : option (list Notes.note) :=
  match ns with
  | [] => None
  | n :: ns' =>
      if String.eqb (Notes.title n) note_name
      then Some ({| Notes.title := Notes.title n;
                    Notes.body := note_body |} :: ns')
      else option_map (cons n) (set_first note_name note_body ns')
  end.

Fixpoint set_first_folder (note_name note_body : string)
         (fs : list Notes.folder) : option (list Notes.folder) :=
  match fs with
  | [] => None
  | f :: fs' =>
      match set_first note_name note_body (Notes.notes f) with
      | Some ns =>
          Some ({| Notes.folder_name := Notes.folder_name f;
                   Notes.notes := ns |} :: fs')
      | None => option_map (cons f) (set_first_folder note_name note_body fs')
      end
  end.

Fixpoint set_first_account (note_name note_body : string) (s : Notes.store)
  : option Notes.store :=
  match s with
  | [] => None
  | a :: s' =>
      match set_first_folder note_name note_body (Notes.folders a) with
      | Some fs =>
          Some ({| Notes.account_name := Notes.account_name a;
                   Notes.folders := fs |} :: s')
      | None => option_map (cons a) (set_first_account note_name note_body s')
      end
  end.

(** The script of [edit_note]:
      set matchingNotes to (every note whose name is "...")
      if (count of matchingNotes) > 0 then
          set theNote to item 1 of matchingNotes
          set body of theNote to "..."
          return "Note updated: " & name of theNote
      else
          return "Note not found" *)
Definition edit_note_applescript (note_name note_body : string)
           (s : Notes.store) : Notes.script_result * Notes.store :=
  let matchingNotes :=
    List.filter (fun n => String.eqb (Notes.title n) note_name)
                (Notes.every_note s) in
  match matchingNotes with
  | theNote :: _ =>
      (Notes.Value ("Note updated: " +:+ Notes.title theNote),
       default s (set_first_account note_name note_body s))
  | [] => (Notes.Value "Note not found", s)
  end.

(** Running a script of the shape of [edit_note]. *)
Definition run_script (script : string) (s : Notes.store)
  : option (Notes.script_result * Notes.store) :=
  match Notes.match_shape edit_note_shape script with
  | Some [note_name; note_body] =>
      Some (edit_note_applescript note_name note_body s)
  | _ => None
  end.

(** The interpreter agrees with this reading of the script. *)
Definition agrees {World : Type}
           (spawn : World -> list string -> run_result * World)
           (view : World -> Notes.store)
           (w : World) (script : string) : Prop :=
  match run_script script (view w) with
  | None => True
  | Some (r, s') =>
      match spawn w ["osascript"; "-e"; script] with
      | (Completed cp, w') =>
          view w' = s' /\
          match r with
          | Notes.Value v =>
              returncode cp = 0%Z /\ Py.strip (stdout cp) = Py.strip v
          | Notes.Failure => returncode cp <> 0%Z
          end
      | (NotCompleted _, _) => False
      end
  end.

(** An interpreter over the model of the application that knows the three
    scripts. *)
Definition notes_spawn (s : Notes.store) (args : list string)
  : run_result * Notes.store :=
  if existsb Py.has_null args then (NotCompleted EmbeddedNull, s)
  else
    match args with
    | [_; _; script] =>
        match run_script script s with
        | Some (Notes.Value v, s') =>
            (Completed {| returncode := 0; stdout := v +:+ nl;
                          stderr := EmptyString |}, s')
        | _ => Sample.notes_spawn s args
        end
    | _ => Sample.notes_spawn s args
    end.

End Edit.

(** * Properties *)

(** ** Facts about texts *)

Lemma append_cons (x : ascii) (a b : string) :
  String x a +:+ b = String x (a +:+ b).
Proof. reflexivity. Qed.

Lemma append_assoc (a b c : string) : (a +:+ b) +:+ c = a +:+ b +:+ c.
Proof.
  induction a as [|x a IH]; [reflexivity |].
  rewrite !append_cons. now f_equal.
Qed.

Lemma split_record_separator (s : string) :
  exists l, Py.split s ", |name|:" = Returns l.
Proof. eexists. reflexivity. Qed.

(** ** Literals and shapes *)

Lemma strip_prefix_app (p s : string) :
  Notes.strip_prefix p (p +:+ s) = Some s.
Proof.
  induction p as [|a p IH]; [now destruct s |].
  rewrite append_cons. cbn [Notes.strip_prefix].
  now rewrite Ascii.eqb_refl.
Qed.

(** A plain text is read back as it is, up to its closing quote. *)
Lemma literal_plain (v rest : string) :
  Notes.plain v = true ->
  Notes.literal (v +:+ dq +:+ rest) = Some (v, rest).
Proof.
  induction v as [|a v IH]; intros Hp.
  - reflexivity.
  - cbn [Notes.plain] in Hp.
    apply andb_prop in Hp as [Ha Hv]. apply andb_prop in Ha as [Hq Hb].
    rewrite append_cons. cbn [Notes.literal].
    apply negb_true_iff in Hq, Hb. rewrite Hq, Hb.
    now rewrite (IH Hv).
Qed.

(** An escaped quote is read as a quote. *)
Lemma literal_escaped_quote (s : string) :
  Notes.literal (bs +:+ dq +:+ s) =
  match Notes.literal s with
  | Some (v, rest) => Some (String dq_char v, rest)
  | None => None
  end.
Proof. reflexivity. Qed.

(** A text without backslash is read back from its escaped form. *)
Lemma literal_escaped (v rest : string) :
  Notes.no_backslash v = true ->
  Notes.literal (escape_quotes v +:+ dq +:+ rest) = Some (v, rest).
Proof.
  unfold escape_quotes.
  induction v as [|a v IH]; intros Hp.
  - reflexivity.
  - cbn [Notes.no_backslash] in Hp. apply andb_prop in Hp as [Hb Hv].
    apply negb_true_iff in Hb.
    cbn [Py.replace_char].
    destruct (Ascii.eqb a dq_char) eqn:Hq.
    + apply Ascii.eqb_eq in Hq. subst a.
      rewrite !append_assoc, literal_escaped_quote.
      now rewrite (IH Hv).
    + rewrite append_cons. cbn [Notes.literal].
      rewrite Hq, Hb. now rewrite (IH Hv).
Qed.

Lemma plain_no_backslash (v : string) :
  Notes.plain v = true -> Notes.no_backslash v = true.
Proof.
  induction v as [|a v IH]; [reflexivity |].
  cbn [Notes.plain Notes.no_backslash]. intros H.
  apply andb_prop in H as [Ha Hv]. apply andb_prop in Ha as [_ Hb].
  now rewrite Hb, (IH Hv).
Qed.

(** The two templates, cut at their literals. *)
Lemma read_note_script_cut (note_name : string) :
  read_note_script note_name =
  Notes.read_note_before +:+ note_name +:+ dq +:+ Notes.read_note_after.
Proof.
  cbv [read_note_script Notes.read_note_before Notes.read_note_after
       script_lines Py.join app].
  rewrite !append_assoc. reflexivity.
Qed.

Lemma create_note_script_cut (f n b : string) :
  create_note_script f n b =
  match Notes.create_note_shape with
  | [p0; p1; p2; p3] =>
      p0 +:+ f +:+ dq +:+ p1 +:+ n +:+ dq +:+ p2 +:+ b +:+ dq +:+ p3
  | _ => EmptyString
  end.
Proof.
  cbv [create_note_script Notes.create_note_shape script_lines Py.join app].
  rewrite !append_assoc. reflexivity.
Qed.

(** Matching a piece and the literal after it. *)
Lemma match_shape_step (p : string) (q : string) (rest : list string)
      (v lit tail : string) :
  Notes.literal (lit +:+ dq +:+ tail) = Some (v, tail) ->
  Notes.match_shape (p :: q :: rest) (p +:+ lit +:+ dq +:+ tail) =
  match Notes.match_shape (q :: rest) tail with
  | None => None
  | Some vs => Some (v :: vs)
  end.
Proof.
  intros Hl. cbn [Notes.match_shape].
  now rewrite strip_prefix_app, Hl.
Qed.

Lemma match_shape_last (p : string) : Notes.match_shape [p] p = Some [].
Proof. cbn [Notes.match_shape]. now rewrite String.eqb_refl. Qed.

(** A plain name leaves the script of [read_note] in shape. *)
Lemma read_note_script_shape (note_name : string) :
  Notes.plain note_name = true ->
  Notes.match_shape Notes.read_note_shape (read_note_script note_name)
  = Some [note_name].
Proof.
  intros Hp. rewrite read_note_script_cut.
  unfold Notes.read_note_shape.
  rewrite (match_shape_step _ _ _ note_name) by now apply literal_plain.
  now rewrite match_shape_last.
Qed.

(** A plain folder and a name and a body without backslash leave the
    script of [create_note] in shape. *)
Lemma create_note_script_shape (f n b : string) :
  Notes.plain f = true ->
  Notes.no_backslash n = true ->
  Notes.no_backslash b = true ->
  Notes.match_shape Notes.create_note_shape
                    (create_note_script f (escape_quotes n) (escape_quotes b))
  = Some [f; n; b].
Proof.
  intros Hf Hn Hb. rewrite create_note_script_cut.
  unfold Notes.create_note_shape.
  rewrite (match_shape_step _ _ _ f) by now apply literal_plain.
  rewrite (match_shape_step _ _ _ n) by now apply literal_escaped.
  rewrite (match_shape_step _ _ _ b) by now apply literal_escaped.
  now rewrite match_shape_last.
Qed.

(** No script of [create_note] has the shape of [read_note]. *)
Lemma create_note_script_not_read (f n b : string) :
  Notes.match_shape Notes.read_note_shape (create_note_script f n b) = None.
Proof. reflexivity. Qed.

Lemma run_read_note_script (naming : string -> string -> string)
      (note_name : string) (s : Notes.store) :
  Notes.plain note_name = true ->
  Notes.run_script naming (read_note_script note_name) s
  = Some (Notes.read_note_applescript note_name s).
Proof.
  intros Hp. unfold Notes.run_script.
  now rewrite read_note_script_shape.
Qed.

Lemma run_create_note_script (naming : string -> string -> string)
      (f n b : string) (s : Notes.store) :
  Notes.plain f = true ->
  Notes.no_backslash n = true ->
  Notes.no_backslash b = true ->
  Notes.run_script naming
    (create_note_script f (escape_quotes n) (escape_quotes b)) s
  = Some (Notes.create_note_applescript naming f n b s).
Proof.
  intros Hf Hn Hb. unfold Notes.run_script.
  rewrite create_note_script_not_read.
  now rewrite create_note_script_shape.
Qed.

(** The first of the notes that pass a test. *)
Lemma filter_head {A : Type} (p : A -> bool) (l : list A) :
  match List.filter p l with
  | x :: _ => Some x
  | [] => None
  end = List.find p l.
Proof.
  induction l as [|x l IH]; [reflexivity |].
  cbn [List.filter List.find]. now destruct (p x).
Qed.

(** Adding a note creates no folder. *)
Lemma add_to_folder_names (f : string) (n : Notes.note)
      (fs : list Notes.folder) :
  map Notes.folder_name (Notes.add_to_folder f n fs)
  = map Notes.folder_name fs.
Proof.
  induction fs as [|x fs IH]; [reflexivity |].
  cbn [Notes.add_to_folder].
  destruct (String.eqb (Notes.folder_name x) f); cbn [map]; [reflexivity |].
  now rewrite IH.
Qed.

(** ** The branches of [call_tool] *)

Section Gateway_properties.

Context {World : Type}.
Variable spawn : World -> list string -> run_result * World.
Variable json_loads : string -> outcome pyval.

Abbreviation call := (call_tool spawn json_loads).

Lemma run_applescript_spec (script : string) (st : state World) :
  run_applescript spawn script st =
  let (r, w') := spawn (world st) (applescript_command script) in
  ended (applescript_command script) st r w'.
Proof.
  unfold run_applescript, bind, subprocess_run, ended, completed, after, ret,
    applescript_command.
  destruct (spawn (world st) _) as [[cp|e] w']; [| reflexivity].
  destruct (returncode cp =? 0)%Z; reflexivity.
Qed.

Lemma run_jxa_spec (script : string) (st : state World) :
  run_jxa spawn script st =
  let args := ["osascript"; "-l"; "JavaScript"; "-e"; script] in
  let (r, w') := spawn (world st) args in
  ended args st r w'.
Proof.
  unfold run_jxa, bind, subprocess_run, ended, completed, after, ret.
  cbv zeta. destruct (spawn (world st) _) as [[cp|e] w']; [| reflexivity].
  destruct (returncode cp =? 0)%Z; reflexivity.
Qed.

(** The errors of a run are none of the handlers' classes. *)
Lemma launch_exn_uncaught (e : launch_error) :
  is_CalledProcessError (launch_exn e) = false
  /\ is_JSONDecodeError (launch_exn e) = false.
Proof. destruct e; split; reflexivity. Qed.

Lemma subscript_some (arguments : gmap string string) (key v : string)
      (st : state World) :
  arguments !! key = Some v ->
  subscript arguments key st = (Returns v, st).
Proof. intros H. unfold subscript. now rewrite H. Qed.

Lemma subscript_none (arguments : gmap string string) (key : string)
      (st : state World) :
  arguments !! key = None ->
  subscript arguments key st = (Raises (KeyError key), st).
Proof. intros H. unfold subscript. now rewrite H. Qed.

(** Entering a branch, reading an argument, running the interpreter. *)
Ltac enter_branch :=
  unfold call_tool; cbn [String.eqb Ascii.eqb Bool.eqb].

Ltac read_argument H :=
  unfold bind at 1; rewrite (subscript_some _ _ _ _ H).

Ltac run_interpreter cp w' Hrc :=
  unfold try_except, bind;
  first [rewrite run_applescript_spec | rewrite run_jxa_spec];
  unfold ended, completed, answer;
  let e := fresh "e" in
  destruct (spawn _ _) as [[cp|e] w'];
  [ destruct (returncode cp =? 0)%Z eqn:Hrc
  | destruct e; reflexivity ].

(** [list_notes]: one process running the fixed script; the text is the
    header and the stripped output, or the diagnostics of the process. *)
Lemma list_notes_run (arguments : gmap string string) (st : state World) :
  call "list_notes" arguments st =
  let (r, w') := spawn (world st) (applescript_command list_notes_script) in
  answer (applescript_command list_notes_script) st
         (fun cp =>
            if (returncode cp =? 0)%Z
            then list_notes_header arguments +:+ nl +:+ Py.strip (stdout cp)
            else "Error listing notes: " +:+ stderr cp)
         r w'.
Proof.
  enter_branch. run_interpreter cp w' Hrc.
  - unfold lift, ret, list_notes_header.
    destruct (split_record_separator (Py.strip (stdout cp))) as [l ->].
    destruct (Py.nonempty (Py.strip (stdout cp)));
      destruct (Py.nonempty (get arguments "folder" ""));
      rewrite ?append_assoc; reflexivity.
  - reflexivity.
Qed.

Lemma read_note_run (arguments : gmap string string) (note_name : string)
      (st : state World) :
  arguments !! "name" = Some note_name ->
  call "read_note" arguments st =
  let args := applescript_command (read_note_script note_name) in
  let (r, w') := spawn (world st) args in
  answer args st
         (fun cp =>
            if (returncode cp =? 0)%Z
            then "Note: " +:+ note_name +:+ nl +:+ nl +:+ Py.strip (stdout cp)
            else "Error reading note: " +:+ stderr cp)
         r w'.
Proof.
  intros Hn. enter_branch. read_argument Hn. cbv zeta.
  run_interpreter cp w' Hrc; reflexivity.
Qed.

Lemma create_note_run (arguments : gmap string string)
      (note_name note_body : string) (st : state World) :
  arguments !! "name" = Some note_name ->
  arguments !! "body" = Some note_body ->
  call "create_note" arguments st =
  let args :=
    applescript_command (create_note_rendered arguments note_name note_body) in
  let (r, w') := spawn (world st) args in
  answer args st
         (fun cp =>
            if (returncode cp =? 0)%Z
            then "Successfully created note: " +:+ Py.strip (stdout cp)
            else "Error creating note: " +:+ stderr cp)
         r w'.
Proof.
  intros Hn Hb. enter_branch. read_argument Hn. read_argument Hb.
  cbv zeta. unfold create_note_rendered.
  run_interpreter cp w' Hrc; reflexivity.
Qed.

Lemma edit_note_run (arguments : gmap string string)
      (note_name note_body : string) (st : state World) :
  arguments !! "name" = Some note_name ->
  arguments !! "body" = Some note_body ->
  call "edit_note" arguments st =
  let args :=
    applescript_command
      (edit_note_script note_name (escape_quotes note_body)) in
  let (r, w') := spawn (world st) args in
  answer args st
         (fun cp =>
            if (returncode cp =? 0)%Z
            then Py.strip (stdout cp)
            else "Error editing note: " +:+ stderr cp)
         r w'.
Proof.
  intros Hn Hb. enter_branch. read_argument Hn. read_argument Hb.
  cbv zeta. run_interpreter cp w' Hrc; reflexivity.
Qed.

(** [search_notes] when the interpreter fails: the text is built from
    [str(e)], that is from the command and the return code. *)
Lemma search_notes_failed (arguments : gmap string string) (query : string)
      (st : state World) (cp : CompletedProcess) (w' : World) :
  arguments !! "query" = Some query ->
  spawn (world st) (search_command query) = (Completed cp, w') ->
  returncode cp <> 0%Z ->
  call "search_notes" arguments st =
  (Returns
     [text_block
        ("Error searching notes: "
         +:+ CalledProcessError_str (returncode cp) (search_command query))],
   after st w' (search_command query)).
Proof.
  intros Hq Hs Hrc. enter_branch. read_argument Hq.
  unfold try_except, bind. rewrite run_jxa_spec. cbv zeta.
  fold (search_command query). rewrite Hs. unfold ended, completed.
  apply Z.eqb_neq in Hrc. rewrite Hrc. reflexivity.
Qed.

(** [search_notes] when the interpreter succeeds and nothing matched. *)
Lemma search_notes_empty (arguments : gmap string string) (query : string)
      (st : state World) (cp : CompletedProcess) (w' : World) :
  arguments !! "query" = Some query ->
  spawn (world st) (search_command query) = (Completed cp, w') ->
  returncode cp = 0%Z ->
  Py.strip (stdout cp) = EmptyString
  \/ (exists v, json_loads (Py.strip (stdout cp)) = Returns v
                /\ truthy v = false) ->
  call "search_notes" arguments st =
  (Returns [text_block ("No notes found matching '" +:+ query +:+ "'")],
   after st w' (search_command query)).
Proof.
  intros Hq Hs Hrc Hout. enter_branch. read_argument Hq.
  unfold try_except, bind. rewrite run_jxa_spec. cbv zeta.
  fold (search_command query). rewrite Hs. unfold ended, completed.
  rewrite Hrc. cbn [Z.eqb].
  destruct Hout as [He | (v & Hv & Hf)].
  - rewrite He. reflexivity.
  - unfold lift, ret. rewrite Hv.
    destruct (Py.nonempty (Py.strip (stdout cp))).
    + rewrite Hf. reflexivity.
    + reflexivity.
Qed.

(** A name outside the catalog reaches the last branch. *)
Lemma unknown_tool_run (tool : string) (arguments : gmap string string)
      (st : state World) :
  ~ In tool (map name list_tools) ->
  call tool arguments st
  = (Returns [text_block ("Unknown tool: " +:+ tool)], st).
Proof.
  intros Hn. unfold call_tool.
  repeat match goal with
  | |- context [String.eqb tool ?s] =>
      destruct (String.eqb_spec tool s) as [->|_];
      [exfalso; apply Hn; cbn; tauto |]
  end.
  reflexivity.
Qed.

(** The required arguments of the four tools that have some. *)
Lemma required_one (tool p : string) (arguments : gmap string string) :
  required_of tool = [p] ->
  supplies_required tool arguments ->
  exists v, arguments !! p = Some v.
Proof.
  unfold supplies_required. intros -> H.
  apply Forall_cons in H as [H _]. exact H.
Qed.

Lemma required_two (tool p q : string) (arguments : gmap string string) :
  required_of tool = [p; q] ->
  supplies_required tool arguments ->
  exists v w, arguments !! p = Some v /\ arguments !! q = Some w.
Proof.
  unfold supplies_required. intros -> H.
  apply Forall_cons in H as [[v Hv] H].
  apply Forall_cons in H as [[w Hw] _]. eauto.
Qed.

(** The four tools that run an AppleScript: when the interpreter ends
    with a status other than zero, the one block of the response is the
    tool's error text followed by the diagnostics, and that process is the
    only one spawned. *)
Lemma applescript_error_text (tool : string)
      (arguments : gmap string string) (st : state World) :
  In tool ["list_notes"; "read_note"; "create_note"; "edit_note"] ->
  supplies_required tool arguments ->
  exists script label, forall cp w',
    spawn (world st) (applescript_command script) = (Completed cp, w') ->
    returncode cp <> 0%Z ->
    call tool arguments st =
    (Returns [text_block (label +:+ stderr cp)],
     after st w' (applescript_command script)).
Proof.
  intros Htool Hreq. cbn [In] in Htool.
  destruct Htool as [<-|[<-|[<-|[<-|[]]]]].
  - exists list_notes_script, "Error listing notes: ". intros cp w' Hs Hrc.
    rewrite list_notes_run, Hs. unfold answer.
    apply Z.eqb_neq in Hrc. now rewrite Hrc.
  - destruct (required_one "read_note" "name" _ eq_refl Hreq) as [n Hn].
    exists (read_note_script n), "Error reading note: ". intros cp w' Hs Hrc.
    rewrite (read_note_run _ _ _ Hn). cbv zeta. rewrite Hs. unfold answer.
    apply Z.eqb_neq in Hrc. now rewrite Hrc.
  - destruct (required_two "create_note" "name" "body" _ eq_refl Hreq)
      as (n & b & Hn & Hb).
    exists (create_note_rendered arguments n b), "Error creating note: ".
    intros cp w' Hs Hrc.
    rewrite (create_note_run _ _ _ _ Hn Hb). cbv zeta. rewrite Hs.
    unfold answer. apply Z.eqb_neq in Hrc. now rewrite Hrc.
  - destruct (required_two "edit_note" "name" "body" _ eq_refl Hreq)
      as (n & b & Hn & Hb).
    exists (edit_note_script n (escape_quotes b)), "Error editing note: ".
    intros cp w' Hs Hrc.
    rewrite (edit_note_run _ _ _ _ Hn Hb). cbv zeta. rewrite Hs.
    unfold answer. apply Z.eqb_neq in Hrc. now rewrite Hrc.
Qed.

(** Whatever [call_tool] returns is one text block. *)
Ltac one_block :=
  repeat match goal with
  | |- context [if ?c then _ else _] => destruct c
  end;
  let H := fresh "H" in
  intros H; first [discriminate H | injection H as <- _; eauto].

Lemma call_tool_one_block (tool : string) (arguments : gmap string string)
      (st st' : state World) (blocks : list TextContent) :
  call tool arguments st = (Returns blocks, st') ->
  exists t, blocks = [text_block t].
Proof.
  destruct (String.eqb_spec tool "list_notes") as [->|N1].
  { rewrite list_notes_run. unfold answer.
    destruct (spawn _ _) as [[cp|e] w']; one_block. }
  destruct (String.eqb_spec tool "search_notes") as [->|N2].
  { enter_branch. unfold bind at 1, subscript.
    destruct (arguments !! "query") as [q|]; [| one_block].
    unfold ret at 1, try_except, bind at 1. rewrite run_jxa_spec. cbv zeta.
    unfold ended, completed.
    destruct (spawn _ _) as [[cp|e] w']; [| unfold ret; one_block].
    destruct (returncode cp =? 0)%Z; [| unfold ret; one_block].
    unfold bind, lift, ret.
    destruct (Py.nonempty (Py.strip (stdout cp))).
    - destruct (json_loads (Py.strip (stdout cp))) as [v|e]; [| one_block].
      destruct (negb (truthy v)); [one_block |].
      destruct (py_len v); [| one_block].
      destruct (py_iter v) as [items|]; [| one_block].
      match goal with
      | |- context [format_matches ?f items ?s] =>
          destruct (format_matches f items s) as [[t|e] st1]
      end; one_block.
    - one_block. }
  destruct (String.eqb_spec tool "read_note") as [->|N3].
  { destruct (arguments !! "name") as [n|] eqn:Hn.
    - rewrite (read_note_run _ _ _ Hn). cbv zeta. unfold answer.
      destruct (spawn _ _) as [[cp|e] w']; one_block.
    - enter_branch. unfold bind at 1. rewrite (subscript_none _ _ _ Hn).
      one_block. }
  destruct (String.eqb_spec tool "create_note") as [->|N4].
  { destruct (arguments !! "name") as [n|] eqn:Hn.
    - destruct (arguments !! "body") as [b|] eqn:Hb.
      + rewrite (create_note_run _ _ _ _ Hn Hb). cbv zeta. unfold answer.
        destruct (spawn _ _) as [[cp|e] w']; one_block.
      + enter_branch. read_argument Hn.
        unfold bind at 1. rewrite (subscript_none _ _ _ Hb). one_block.
    - enter_branch. unfold bind at 1. rewrite (subscript_none _ _ _ Hn).
      one_block. }
  destruct (String.eqb_spec tool "edit_note") as [->|N5].
  { destruct (arguments !! "name") as [n|] eqn:Hn.
    - destruct (arguments !! "body") as [b|] eqn:Hb.
      + rewrite (edit_note_run _ _ _ _ Hn Hb). cbv zeta. unfold answer.
        destruct (spawn _ _) as [[cp|e] w']; one_block.
      + enter_branch. read_argument Hn.
        unfold bind at 1. rewrite (subscript_none _ _ _ Hb). one_block.
    - enter_branch. unfold bind at 1. rewrite (subscript_none _ _ _ Hn).
      one_block. }
  rewrite unknown_tool_run; [one_block |].
  cbn [map list_tools name In]. intuition congruence.
Qed.

(** ** The claims about the gateway, for every interpreter and decoder *)

(** C4. In [list_notes] the folder only changes the header: whatever the
    arguments, the one process spawned runs the same fixed script and
    leaves the same state, and the two responses are the same error text,
    or the two headers followed by the same body; when the run itself
    ends with an error, the two calls raise it alike. *)
Theorem list_notes_folder_changes_header_only
        (arguments1 arguments2 : gmap string string) (st : state World) :
  exists body st',
    spawned st' = (spawned st ++ [applescript_command list_notes_script])%list
    /\ ((call "list_notes" arguments1 st =
         (Returns [text_block (list_notes_header arguments1 +:+ body)], st')
         /\ call "list_notes" arguments2 st =
            (Returns [text_block (list_notes_header arguments2 +:+ body)], st'))
        \/ (call "list_notes" arguments1 st =
            (Returns [text_block ("Error listing notes: " +:+ body)], st')
            /\ call "list_notes" arguments2 st =
               (Returns [text_block ("Error listing notes: " +:+ body)], st'))
        \/ (exists e,
              call "list_notes" arguments1 st = (Raises (launch_exn e), st')
              /\ call "list_notes" arguments2 st
                 = (Raises (launch_exn e), st'))).
Proof.
  rewrite !list_notes_run. unfold answer.
  destruct (spawn (world st) _) as [[cp|e] w'].
  - destruct (returncode cp =? 0)%Z.
    + exists (nl +:+ Py.strip (stdout cp)),
        (after st w' (applescript_command list_notes_script)).
      split; [reflexivity |]. left. split; reflexivity.
    + exists (stderr cp),
        (after st w' (applescript_command list_notes_script)).
      split; [reflexivity |]. right. left. split; reflexivity.
  - exists EmptyString,
      (after st w' (applescript_command list_notes_script)).
    split; [reflexivity |]. right. right. exists e. split; reflexivity.
Qed.

(** C10. In [list_notes] the splitting of the output into records cannot
    fail and does not reach the response: for every output of the
    interpreter the call returns, and its text is the header line followed
    by the stripped output, or the error text of a failed script; the only
    thing raised is the error of a run that did not complete. *)
Theorem list_notes_text_is_stripped_output
        (arguments : gmap string string) (st : state World) :
  (forall s, exists l, Py.split s ", |name|:" = Returns l)
  /\ call "list_notes" arguments st =
     match spawn (world st) (applescript_command list_notes_script) with
     | (Completed cp, w') =>
         (Returns
            [text_block
               (if (returncode cp =? 0)%Z
                then list_notes_header arguments +:+ nl
                     +:+ Py.strip (stdout cp)
                else "Error listing notes: " +:+ stderr cp)],
          after st w' (applescript_command list_notes_script))
     | (NotCompleted e, w') =>
         (Raises (launch_exn e),
          after st w' (applescript_command list_notes_script))
     end.
Proof.
  split; [exact split_record_separator |].
  rewrite list_notes_run.
  now destruct (spawn (world st) _) as [[cp|e] w'].
Qed.

(** C5. In [search_notes], when the interpreter succeeds and prints
    nothing or an empty array, the response is the one text
    "No notes found matching '<query>'". *)
Theorem search_notes_no_results
        (arguments : gmap string string) (query : string)
        (st : state World) (cp : CompletedProcess) (w' : World) :
  arguments !! "query" = Some query ->
  spawn (world st) (search_command query) = (Completed cp, w') ->
  returncode cp = 0%Z ->
  Py.strip (stdout cp) = EmptyString
  \/ json_loads (Py.strip (stdout cp)) = Returns (PList []) ->
  call "search_notes" arguments st =
  (Returns [text_block ("No notes found matching '" +:+ query +:+ "'")],
   after st w' (search_command query)).
Proof.
  intros Hq Hs Hrc Hout.
  apply (search_notes_empty _ _ _ _ _ Hq Hs Hrc).
  destruct Hout as [He | Hj]; [now left | right].
  exists (PList []). split; [exact Hj | reflexivity].
Qed.

(** C8. A tool name outside the catalog gives one text block that
    contains "Unknown tool", and nothing is raised or spawned. *)
Theorem unknown_tool_text
        (tool : string) (arguments : gmap string string) (st : state World) :
  ~ In tool (map name list_tools) ->
  exists t,
    call tool arguments st = (Returns [text_block t], st)
    /\ Py.contains "Unknown tool" t = true.
Proof.
  intros Hn. exists ("Unknown tool: " +:+ tool).
  split; [now apply unknown_tool_run | reflexivity].
Qed.

(** C9. The result of an invocation is exactly one text block: for every
    tool name, known or not, every argument map, and whatever the
    interpreter and the decoder do, the handler the decorator registers
    answers with one text block, be it the block [call_tool] returns,
    the text of the exception it raises, or the rejection of the
    arguments. *)
Theorem invocation_one_text_block
        (validate : string -> gmap string string -> option string)
        (describe : exn -> string)
        (tool : string) (arguments : gmap string string) (st : state World) :
  exists t,
    content (fst (handler spawn json_loads validate describe
                          tool arguments st))
    = [text_block t].
Proof.
  unfold handler.
  destruct (validate tool arguments) as [message|]; [cbn; eauto |].
  destruct (call tool arguments st) as [[blocks|e] st'] eqn:Hc.
  - destruct (call_tool_one_block _ _ _ _ _ Hc) as [t ->]. cbn. eauto.
  - cbn. eauto.
Qed.

(** ** What the scripts do, for the texts they can hold *)

(** The application a world holds, and the name the application gives a
    new note. *)
Variable view : World -> Notes.store.
Variable naming : string -> string -> string.

(** [create_note] needs its folder, for a folder without quote or
    backslash and a name and a body without backslash: with an interpreter
    that agrees with the script, the one process spawned runs the rendered
    script; when the account has no folder of that name the response is
    the error text with the diagnostics and the application is left as it
    was, and when it has one the response gives the name of the new
    note. *)
Lemma create_note_requires_folder
        (arguments : gmap string string) (note_name note_body : string)
        (st : state World) :
  arguments !! "name" = Some note_name ->
  arguments !! "body" = Some note_body ->
  Notes.plain (get arguments "folder" "Notes") = true ->
  Notes.no_backslash note_name = true ->
  Notes.no_backslash note_body = true ->
  agrees spawn view naming (world st)
         (create_note_rendered arguments note_name note_body) ->
  exists t st',
    call "create_note" arguments st = (Returns [text_block t], st')
    /\ spawned st' =
       (spawned st
        ++ [applescript_command
              (create_note_rendered arguments note_name note_body)])%list
    /\ if Notes.has_folder (get arguments "folder" "Notes") (view (world st))
       then t = "Successfully created note: "
                +:+ Py.strip (naming note_name note_body)
       else (exists diagnostics, t = "Error creating note: " +:+ diagnostics)
            /\ view (world st') = view (world st).
Proof.
  intros Hn Hb Hf Hnn Hnb Hag.
  rewrite (create_note_run _ _ _ _ Hn Hb). cbv zeta.
  unfold agrees, create_note_rendered, answer in *.
  rewrite (run_create_note_script _ _ _ _ _ Hf Hnn Hnb) in Hag.
  unfold Notes.create_note_applescript, Notes.has_folder in *.
  destruct (spawn (world st) _) as [[cp|e] w'].
  2:{ destruct (Notes.find_account "iCloud" (view (world st))) as [icloud|];
        [destruct (Notes.find_folder _ icloud) |]; contradiction. }
  destruct (Notes.find_account "iCloud" (view (world st))) as [icloud|].
  - destruct (Notes.find_folder _ icloud) as [targetFolder|].
    + destruct Hag as (_ & Hrc & Hout). rewrite Hrc. cbn [Z.eqb].
      do 2 eexists. split; [reflexivity |]. split; [reflexivity |].
      cbn [Notes.title] in Hout. now rewrite Hout.
    + destruct Hag as (Hv & Hrc). apply Z.eqb_neq in Hrc. rewrite Hrc.
      do 2 eexists. split; [reflexivity |]. split; [reflexivity |].
      split; [eauto | exact Hv].
  - destruct Hag as (Hv & Hrc). apply Z.eqb_neq in Hrc. rewrite Hrc.
    do 2 eexists. split; [reflexivity |]. split; [reflexivity |].
    split; [eauto | exact Hv].
Qed.

(** [read_note] looks a note up by its exact name and the first match
    wins, for a name without quote or backslash: with an interpreter that
    agrees with the script, the response is one text block with the body
    of the first note of that name, or with "Note not found" when there
    is none. *)
Lemma read_note_first_match
        (arguments : gmap string string) (note_name : string)
        (st : state World) :
  arguments !! "name" = Some note_name ->
  Notes.plain note_name = true ->
  agrees spawn view naming (world st) (read_note_script note_name) ->
  exists st',
    call "read_note" arguments st =
    (Returns
       [text_block
          ("Note: " +:+ note_name +:+ nl +:+ nl +:+
           match List.find (fun n => String.eqb (Notes.title n) note_name)
                           (Notes.every_note (view (world st))) with
           | Some theNote => Py.strip (Notes.body theNote)
           | None => "Note not found"
           end)], st').
Proof.
  intros Hn Hp Hag.
  rewrite (read_note_run _ _ _ Hn). cbv zeta.
  unfold agrees, answer in *. rewrite (run_read_note_script _ _ _ Hp) in Hag.
  unfold Notes.read_note_applescript in Hag.
  rewrite <- filter_head.
  destruct (spawn (world st) _) as [[cp|e] w'].
  2:{ destruct (List.filter _ _); contradiction. }
  destruct (List.filter _ _) as [|theNote others];
    destruct Hag as (_ & Hrc & Hout); rewrite Hrc, Hout; cbn [Z.eqb];
    eexists; reflexivity.
Qed.

End Gateway_properties.

(** ** The catalog *)

(** C2. The catalog lists exactly the five descriptors, with these
    required and optional parameters. *)
Theorem catalog_descriptors :
  map (fun t => (name t, required_params t, optional_params t)) list_tools
  = [ ("list_notes", [], ["folder"]);
      ("search_notes", ["query"], []);
      ("read_note", ["name"], []);
      ("create_note", ["name"; "body"], ["folder"]);
      ("edit_note", ["name"; "body"], []) ].
Proof. reflexivity. Qed.

(** ** The gateway on the sample environments *)

(** C1. The name given to [create_note] is escaped, and the literals of
    the rendered script read back as the folder, the name and the body.
    The name given to [read_note] is substituted as it is: with a quote in
    it, the literal of the rendered script ends at that quote, and the
    script has lost the shape of the template. *)
Theorem read_note_name_not_escaped :
  Notes.match_shape
    Notes.create_note_shape
    (create_note_rendered (<["name" := Sample.quoted_name]> {["body" := "C"]})
                          Sample.quoted_name "C")
  = Some ["Notes"; Sample.quoted_name; "C"]
  /\ spawned (snd (call_tool Sample.notes_spawn Sample.decode "read_note"
                             {["name" := Sample.quoted_name]}
                             (Sample.start Sample.library)))
     = [applescript_command (read_note_script Sample.quoted_name)]
  /\ read_note_script Sample.quoted_name
     = Notes.read_note_before +:+ Sample.quoted_name +:+ dq +:+ Notes.read_note_after
  /\ read_note_script Sample.quoted_name
     <> Notes.read_note_before +:+ escape_quotes Sample.quoted_name +:+ dq
        +:+ Notes.read_note_after
  /\ Notes.literal (Sample.quoted_name +:+ dq +:+ Notes.read_note_after)
     = Some ("A", "B" +:+ dq +:+ Notes.read_note_after)
  /\ Notes.match_shape Notes.read_note_shape (read_note_script Sample.quoted_name)
     = None.
Proof.
  split; [vm_compute; reflexivity |].
  split; [vm_compute; reflexivity |].
  split; [apply read_note_script_cut |].
  split; [vm_compute; discriminate |].
  split; vm_compute; reflexivity.
Qed.

(** C3. [search_notes] with a failing interpreter: the one text block is
    built from the command and the exit status, and the diagnostics the
    process wrote are not in it. *)
Theorem search_notes_error_omits_diagnostics :
  let diagnostics := "execution error: Notes got an error" in
  let result :=
    call_tool Sample.failing_spawn Sample.decode "search_notes"
              {["query" := "x"]} (Sample.start tt) in
  fst (Sample.failing_spawn tt (search_command "x"))
  = Completed {| returncode := 1; stdout := EmptyString;
                 stderr := diagnostics |}
  /\ exists t,
       fst result = Returns [text_block t]
       /\ t = "Error searching notes: "
              +:+ CalledProcessError_str 1 (search_command "x")
       /\ Py.contains diagnostics t = false
       /\ spawned (snd result) = [search_command "x"].
Proof.
  cbv zeta. split; [reflexivity |].
  eexists. split; [vm_compute; reflexivity |].
  split; [vm_compute; reflexivity |].
  split; vm_compute; reflexivity.
Qed.

(** The function itself, without a required argument: [search_notes]
    raises, and returns no block; the block of the invocation is the
    handler's. *)
Lemma missing_argument_raises :
  call_tool Sample.empty_spawn Sample.decode "search_notes" ∅
            (Sample.start tt)
  = (Raises (KeyError "query"), Sample.start tt)
  /\ ~ exists blocks,
       fst (call_tool Sample.empty_spawn Sample.decode "search_notes" ∅
                      (Sample.start tt)) = Returns blocks.
Proof.
  assert (H : call_tool Sample.empty_spawn Sample.decode "search_notes" ∅
                        (Sample.start tt)
              = (Raises (KeyError "query"), Sample.start tt))
    by (vm_compute; reflexivity).
  split; [exact H |].
  rewrite H. intros [blocks Hb]. discriminate Hb.
Qed.

(** A name with a null character: the command is not run, [read_note]
    raises the [ValueError] of the run, and the handler answers the
    invocation with one text block and the error flag. *)
Lemma null_name_invocation (describe : exn -> string) :
  let arguments : gmap string string := {["name" := Sample.null_name]} in
  fst (call_tool Sample.notes_spawn Sample.decode "read_note" arguments
                 (Sample.start Sample.library))
  = Raises ValueError
  /\ fst (handler Sample.notes_spawn Sample.decode unchecked describe
                  "read_note" arguments (Sample.start Sample.library))
     = {| content := [text_block (describe ValueError)]; isError := true |}.
Proof.
  cbv zeta.
  assert (H : call_tool Sample.notes_spawn Sample.decode "read_note"
                        {["name" := Sample.null_name]}
                        (Sample.start Sample.library)
              = (Raises ValueError,
                 after (Sample.start Sample.library) Sample.library
                       (applescript_command
                          (read_note_script Sample.null_name))))
    by (vm_compute; reflexivity).
  split; [now rewrite H |].
  unfold handler, unchecked. now rewrite H.
Qed.

(** C6. [create_note] in a folder that exists does not always give the
    name of the new note. The folder is substituted as it is and a
    backslash is not escaped: for an existing folder with a quote in its
    name, and for a body that ends with a backslash in the existing folder
    "Notes", the rendered script has lost the shape of the template, the
    interpreter rejects it, and the response is the error text, with no
    note made. *)
Theorem create_note_in_existing_folder_fails :
  let quoted : gmap string string :=
    <["folder" := Sample.quoted_name]> (<["name" := "T"]> {["body" := "B"]}) in
  let backslash : gmap string string :=
    <["name" := "T"]> {["body" := Sample.path_body]} in
  (Notes.has_folder Sample.quoted_name Sample.quoted_library = true
   /\ Notes.match_shape Notes.create_note_shape
                        (create_note_rendered quoted "T" "B") = None
   /\ call_tool Sample.notes_spawn Sample.decode "create_note" quoted
                (Sample.start Sample.quoted_library)
      = (Returns [text_block "Error creating note: syntax error"],
         after (Sample.start Sample.quoted_library) Sample.quoted_library
               (applescript_command (create_note_rendered quoted "T" "B"))))
  /\ (Notes.has_folder "Notes" Sample.library = true
      /\ Notes.match_shape Notes.create_note_shape
                           (create_note_rendered backslash "T"
                                                 Sample.path_body) = None
      /\ call_tool Sample.notes_spawn Sample.decode "create_note" backslash
                   (Sample.start Sample.library)
         = (Returns [text_block "Error creating note: syntax error"],
            after (Sample.start Sample.library) Sample.library
                  (applescript_command
                     (create_note_rendered backslash "T" Sample.path_body)))).
Proof.
  cbv zeta. split; (split; [| split]); vm_compute; reflexivity.
Qed.

(** C7. [read_note] with a name that no note has does not always give
    "Note not found". The name is substituted as it is: with a quote in
    it the rendered script has lost the shape of the template, the
    interpreter rejects it, and the response is the error text, not the
    sentinel. *)
Theorem read_note_unmatched_name_fails :
  let arguments : gmap string string := {["name" := Sample.quoted_name]} in
  List.find (fun n => String.eqb (Notes.title n) Sample.quoted_name)
            (Notes.every_note Sample.library) = None
  /\ agrees Sample.notes_spawn (fun w => w) Sample.naming Sample.library
            (read_note_script Sample.quoted_name)
  /\ Notes.match_shape Notes.read_note_shape
                       (read_note_script Sample.quoted_name) = None
  /\ call_tool Sample.notes_spawn Sample.decode "read_note" arguments
               (Sample.start Sample.library)
     = (Returns [text_block "Error reading note: syntax error"],
        after (Sample.start Sample.library) Sample.library
              (applescript_command (read_note_script Sample.quoted_name)))
  /\ Py.contains "Note not found" "Error reading note: syntax error" = false.
Proof.
  cbv zeta. split; [reflexivity |].
  split; [vm_compute; exact I |].
  split; [vm_compute; reflexivity |].
  split; vm_compute; reflexivity.
Qed.

(** *** The theorems at concrete inputs *)

Lemma search_notes_no_results_witness :
  let arguments : gmap string string := {["query" := "zzz_no_such_token"]} in
  arguments !! "query" = Some "zzz_no_such_token"
  /\ call_tool Sample.empty_spawn Sample.decode "search_notes" arguments
               (Sample.start tt)
     = (Returns [text_block "No notes found matching 'zzz_no_such_token'"],
        after (Sample.start tt) tt (search_command "zzz_no_such_token")).
Proof.
  cbv zeta. split; [reflexivity |].
  apply (search_notes_no_results
           Sample.empty_spawn Sample.decode
           {["query" := "zzz_no_such_token"]} "zzz_no_such_token"
           (Sample.start tt)
           {| returncode := 0; stdout := "[]" +:+ nl; stderr := EmptyString |}
           tt).
  - reflexivity.
  - reflexivity.
  - reflexivity.
  - right. vm_compute. reflexivity.
Defined.

Lemma unknown_tool_text_witness :
  ~ In "delete_note" (map name list_tools)
  /\ exists t,
       call_tool Sample.empty_spawn Sample.decode "delete_note" ∅
                 (Sample.start tt)
       = (Returns [text_block t], Sample.start tt)
       /\ Py.contains "Unknown tool" t = true.
Proof.
  assert (H : ~ In "delete_note" (map name list_tools)).
  { cbn. intros H. repeat destruct H as [H|H]; try discriminate H. exact H. }
  split; [exact H |].
  exact (unknown_tool_text Sample.empty_spawn Sample.decode
                           "delete_note" ∅ (Sample.start tt) H).
Defined.

Lemma create_note_requires_folder_witness :
  let arguments : gmap string string :=
    <["folder" := "NonexistentFolder"]> (<["name" := "T"]> {["body" := "B"]}) in
  Notes.has_folder "NonexistentFolder" Sample.library = false
  /\ agrees Sample.notes_spawn (fun w => w) Sample.naming Sample.library
            (create_note_rendered arguments "T" "B")
  /\ exists t st',
       call_tool Sample.notes_spawn Sample.decode "create_note" arguments
                 (Sample.start Sample.library)
       = (Returns [text_block t], st')
       /\ spawned st' = [applescript_command
                           (create_note_rendered arguments "T" "B")]
       /\ (exists diagnostics, t = "Error creating note: " +:+ diagnostics)
       /\ world st' = Sample.library.
Proof.
  cbv zeta.
  assert (Hag : agrees Sample.notes_spawn (fun w => w) Sample.naming
                  Sample.library
                  (create_note_rendered
                     (<["folder" := "NonexistentFolder"]>
                        (<["name" := "T"]> {["body" := "B"]})) "T" "B")).
  { vm_compute. split; [reflexivity | discriminate]. }
  split; [reflexivity |]. split; [exact Hag |].
  exact (create_note_requires_folder
           Sample.notes_spawn Sample.decode (fun w => w) Sample.naming
           (<["folder" := "NonexistentFolder"]>
              (<["name" := "T"]> {["body" := "B"]})) "T" "B"
           (Sample.start Sample.library)
           eq_refl eq_refl eq_refl eq_refl eq_refl Hag).
Defined.

(** A note made in a folder that exists. *)
Lemma create_note_in_folder :
  let arguments : gmap string string :=
    <["folder" := "Work"]> (<["name" := "T"]> {["body" := "B"]}) in
  Notes.has_folder "Work" Sample.library = true
  /\ fst (call_tool Sample.notes_spawn Sample.decode "create_note" arguments
                    (Sample.start Sample.library))
     = Returns [text_block "Successfully created note: T"].
Proof. cbv zeta. split; vm_compute; reflexivity. Qed.

Lemma read_note_first_match_witness :
  let arguments : gmap string string := {["name" := "Ideas"]} in
  agrees Sample.notes_spawn (fun w => w) Sample.naming Sample.library
         (read_note_script "Ideas")
  /\ exists st',
       call_tool Sample.notes_spawn Sample.decode "read_note" arguments
                 (Sample.start Sample.library)
       = (Returns [text_block ("Note: Ideas" +:+ nl +:+ nl +:+ "first")], st').
Proof.
  cbv zeta.
  assert (Hag : agrees Sample.notes_spawn (fun w => w) Sample.naming
                  Sample.library (read_note_script "Ideas")).
  { vm_compute. repeat split; reflexivity. }
  split; [exact Hag |].
  exact (read_note_first_match
           Sample.notes_spawn Sample.decode (fun w => w) Sample.naming
           {["name" := "Ideas"]} "Ideas" (Sample.start Sample.library)
           eq_refl eq_refl Hag).
Defined.

(** * More of the gateway *)

(** Whether the required parameters are there can be decided. *)
Lemma classic_supplies (tool : string) (arguments : gmap string string) :
  supplies_required tool arguments \/ ~ supplies_required tool arguments.
Proof.
  unfold supplies_required.
  induction (required_of tool) as [|p ps IH].
  - left. constructor.
  - destruct (arguments !! p) as [v|] eqn:Hp.
    + destruct IH as [IH | IH].
      * left. constructor; [rewrite Hp; eauto | exact IH].
      * right. intros H. apply IH. now inversion H.
    + right. intros H. inversion H as [|? ? [v Hv] ?]. congruence.
Qed.

Lemma append_empty_r (a : string) : a +:+ EmptyString = a.
Proof.
  induction a as [|x a IH]; [reflexivity |].
  rewrite append_cons. now f_equal.
Qed.

Section More_properties.

Context {World : Type}.
Variable spawn : World -> list string -> run_result * World.
Variable json_loads : string -> outcome pyval.

Abbreviation run := (call_tool spawn json_loads).

Ltac branch := unfold call_tool; cbn [String.eqb Ascii.eqb Bool.eqb].

Ltac argument H :=
  unfold bind at 1; rewrite (subscript_some _ _ _ _ H).

Ltac no_argument H :=
  unfold bind at 1; rewrite (subscript_none _ _ _ H).

(** Without a required parameter the call stops at the first one that is
    missing. *)
Lemma missing_required_run
      (tool : string) (arguments : gmap string string) (st : state World) :
  ~ supplies_required tool arguments ->
  exists key,
    In key (required_of tool)
    /\ arguments !! key = None
    /\ run tool arguments st = (Raises (KeyError key), st).
Proof.
  intros Hno.
  assert (Hcase : tool = "search_notes" \/ tool = "read_note"
                  \/ tool = "create_note" \/ tool = "edit_note").
  { destruct (String.eqb_spec tool "search_notes"); [tauto |].
    destruct (String.eqb_spec tool "read_note"); [tauto |].
    destruct (String.eqb_spec tool "create_note"); [tauto |].
    destruct (String.eqb_spec tool "edit_note"); [tauto |].
    exfalso. apply Hno. unfold supplies_required, required_of.
    cbn [list_tools flat_map name app].
    repeat match goal with
    | |- context [String.eqb ?a tool] =>
        destruct (String.eqb_spec a tool) as [E|_];
        [symmetry in E; try contradiction |]
    end; cbn; try constructor.
    subst tool. cbn. constructor. }
  destruct Hcase as [-> | [-> | [-> | ->]]].
  - destruct (arguments !! "query") as [q|] eqn:Hq.
    { exfalso. apply Hno. constructor; [eauto | constructor]. }
    exists "query". split; [cbn; tauto |]. split; [exact Hq |].
    branch. now no_argument Hq.
  - destruct (arguments !! "name") as [n|] eqn:Hn.
    { exfalso. apply Hno. constructor; [eauto | constructor]. }
    exists "name". split; [cbn; tauto |]. split; [exact Hn |].
    branch. now no_argument Hn.
  - destruct (arguments !! "name") as [n|] eqn:Hn.
    + destruct (arguments !! "body") as [b|] eqn:Hb.
      { exfalso. apply Hno.
        constructor; [eauto | constructor; [eauto | constructor]]. }
      exists "body". split; [cbn; tauto |]. split; [exact Hb |].
      branch. argument Hn. now no_argument Hb.
    + exists "name". split; [cbn; tauto |]. split; [exact Hn |].
      branch. now no_argument Hn.
  - destruct (arguments !! "name") as [n|] eqn:Hn.
    + destruct (arguments !! "body") as [b|] eqn:Hb.
      { exfalso. apply Hno.
        constructor; [eauto | constructor; [eauto | constructor]]. }
      exists "body". split; [cbn; tauto |]. split; [exact Hb |].
      branch. argument Hn. now no_argument Hb.
    + exists "name". split; [cbn; tauto |]. split; [exact Hn |].
      branch. now no_argument Hn.
Qed.

(** X1. A tool called without a parameter its descriptor requires raises
    [KeyError] for such a parameter, and nothing is spawned or changed. *)
Theorem missing_required_raises
        (tool : string) (arguments : gmap string string) (st : state World) :
  ~ supplies_required tool arguments ->
  exists key,
    In key (required_of tool)
    /\ arguments !! key = None
    /\ run tool arguments st = (Raises (KeyError key), st).
Proof. apply missing_required_run. Qed.

(** The loop over the results spawns nothing. *)
Lemma format_match_state (formatted : string) (m : pyval) (st : state World) :
  snd (format_match formatted m st) = st.
Proof.
  unfold format_match, bind, lift, ret.
  destruct (getitem m "name"); [| reflexivity].
  destruct (getitem m "folder"); [| reflexivity].
  destruct (getitem m "preview") as [p|]; [| reflexivity].
  destruct (slice_to 100 p); reflexivity.
Qed.

Lemma format_matches_state (ms : list pyval) (formatted : string)
      (st : state World) :
  snd (format_matches formatted ms st) = st.
Proof.
  revert formatted. induction ms as [|m ms IH]; intros formatted.
  - reflexivity.
  - cbn [format_matches]. unfold bind.
    pose proof (format_match_state formatted m st) as Hm.
    destruct (format_match formatted m st) as [[t|e] st1]; cbn [snd] in Hm;
      subst st1; [apply IH | reflexivity].
Qed.

Ltac caught :=
  repeat match goal with
  | |- context [if ?c then _ else _] => destruct c
  end; reflexivity.

(** The state [search_notes] leaves, whatever the interpreter prints and
    the decoder makes of it. *)
Lemma search_notes_state (arguments : gmap string string) (query : string)
      (st : state World) :
  arguments !! "query" = Some query ->
  snd (run "search_notes" arguments st)
  = after st (snd (spawn (world st) (search_command query)))
          (search_command query).
Proof.
  intros Hq. branch. argument Hq.
  unfold try_except, bind at 1. rewrite run_jxa_spec. cbv zeta.
  fold (search_command query).
  destruct (spawn (world st) (search_command query)) as [[cp|e] w'].
  2:{ unfold ended. cbn [snd]. destruct e; reflexivity. }
  unfold ended, completed. cbn [snd].
  destruct (returncode cp =? 0)%Z; [| reflexivity].
  unfold bind, lift, ret.
  destruct (Py.nonempty (Py.strip (stdout cp))).
  - destruct (json_loads (Py.strip (stdout cp))) as [v|e].
    + destruct (negb (truthy v)); [reflexivity |].
      destruct (py_len v); [| caught].
      destruct (py_iter v) as [items|]; [| caught].
      match goal with
      | |- context [format_matches ?f items ?s] =>
          pose proof (format_matches_state items f s) as Hs;
          destruct (format_matches f items s) as [[t|e] st1]
      end; cbn [snd] in Hs; subst st1; caught.
    + caught.
  - reflexivity.
Qed.

(** X2. No retry, no second process: a call leaves the state as it was,
    or has run exactly one [osascript] command, with one script. *)
Theorem at_most_one_process
        (tool : string) (arguments : gmap string string) (st : state World) :
  snd (run tool arguments st) = st
  \/ exists script w',
       snd (run tool arguments st) = after st w' (applescript_command script)
       \/ snd (run tool arguments st) = after st w' (jxa_command script).
Proof.
  destruct (classic_supplies tool arguments) as [Hreq | Hno].
  2:{ left. destruct (missing_required_run tool arguments st Hno)
        as (key & _ & _ & ->). reflexivity. }
  destruct (String.eqb_spec tool "list_notes") as [->|N1].
  { right. rewrite list_notes_run. unfold answer.
    destruct (spawn _ _) as [[cp|e] w'];
      exists list_notes_script, w'; left; reflexivity. }
  destruct (String.eqb_spec tool "search_notes") as [->|N2].
  { right. destruct (required_one "search_notes" "query" _ eq_refl Hreq)
      as [q Hq].
    rewrite (search_notes_state _ _ _ Hq).
    exists (search_notes_script q), (snd (spawn (world st) (search_command q))).
    right. reflexivity. }
  destruct (String.eqb_spec tool "read_note") as [->|N3].
  { right. destruct (required_one "read_note" "name" _ eq_refl Hreq) as [n Hn].
    rewrite (read_note_run _ _ _ _ _ Hn). cbv zeta. unfold answer.
    destruct (spawn _ _) as [[cp|e] w'];
      exists (read_note_script n), w'; left; reflexivity. }
  destruct (String.eqb_spec tool "create_note") as [->|N4].
  { right. destruct (required_two "create_note" "name" "body" _ eq_refl Hreq)
      as (n & b & Hn & Hb).
    rewrite (create_note_run _ _ _ _ _ _ Hn Hb). cbv zeta. unfold answer.
    destruct (spawn _ _) as [[cp|e] w'];
      exists (create_note_rendered arguments n b), w'; left; reflexivity. }
  destruct (String.eqb_spec tool "edit_note") as [->|N5].
  { right. destruct (required_two "edit_note" "name" "body" _ eq_refl Hreq)
      as (n & b & Hn & Hb).
    rewrite (edit_note_run _ _ _ _ _ _ Hn Hb). cbv zeta. unfold answer.
    destruct (spawn _ _) as [[cp|e] w'];
      exists (edit_note_script n (escape_quotes b)), w'; left;
      reflexivity. }
  left. rewrite unknown_tool_run; [reflexivity |].
  cbn [map list_tools name In]. intuition congruence.
Qed.

(** X3. A call reads its arguments at the parameters the catalog declares
    for the tool and nowhere else: two argument maps that agree there give
    the same result and the same state. *)
Theorem reads_declared_parameters_only
        (tool : string) (arguments1 arguments2 : gmap string string)
        (st : state World) :
  agree_on (declared_of tool) arguments1 arguments2 ->
  run tool arguments1 st = run tool arguments2 st.
Proof.
  unfold agree_on. intros H.
  destruct (String.eqb_spec tool "list_notes") as [->|N1].
  { change (declared_of "list_notes") with ["folder"] in H.
    apply Forall_cons in H as [Hf _].
    branch. unfold get. now rewrite Hf. }
  destruct (String.eqb_spec tool "search_notes") as [->|N2].
  { change (declared_of "search_notes") with ["query"] in H.
    apply Forall_cons in H as [Hq _].
    branch. unfold bind at 1 3, subscript. now rewrite Hq. }
  destruct (String.eqb_spec tool "read_note") as [->|N3].
  { change (declared_of "read_note") with ["name"] in H.
    apply Forall_cons in H as [Hn _].
    branch. unfold bind at 1 3, subscript. now rewrite Hn. }
  destruct (String.eqb_spec tool "create_note") as [->|N4].
  { change (declared_of "create_note") with ["name"; "body"; "folder"] in H.
    apply Forall_cons in H as [Hn H]. apply Forall_cons in H as [Hb H].
    apply Forall_cons in H as [Hf _].
    branch. unfold bind, subscript, get. now rewrite Hn, Hb, Hf. }
  destruct (String.eqb_spec tool "edit_note") as [->|N5].
  { change (declared_of "edit_note") with ["name"; "body"] in H.
    apply Forall_cons in H as [Hn H]. apply Forall_cons in H as [Hb _].
    branch. unfold bind, subscript. now rewrite Hn, Hb. }
  rewrite !unknown_tool_run; [reflexivity | |];
    cbn [map list_tools name In]; intuition congruence.
Qed.

(** What is common to the searches that succeed with some output. *)
Lemma search_notes_decoded (arguments : gmap string string) (query : string)
      (st : state World) (cp : CompletedProcess) (w' : World) :
  arguments !! "query" = Some query ->
  spawn (world st) (search_command query) = (Completed cp, w') ->
  returncode cp = 0%Z ->
  Py.nonempty (Py.strip (stdout cp)) = true ->
  run "search_notes" arguments st =
  try_except
    (fun st0 =>
       match json_loads (Py.strip (stdout cp)) with
       | Raises e => (Raises e, st0)
       | Returns matches =>
           if negb (truthy matches)
           then (Returns [text_block ("No notes found matching '" +:+ query
                                      +:+ "'")], st0)
           else
             match py_len matches with
             | Raises e => (Raises e, st0)
             | Returns n =>
                 match py_iter matches with
                 | Raises e => (Raises e, st0)
                 | Returns items =>
                     match format_matches
                             ("Found " +:+ Py.str_nat n
                              +:+ " note(s) matching '" +:+ query +:+ "':"
                              +:+ nl +:+ nl) items st0 with
                     | (Returns formatted, st1) =>
                         (Returns [text_block formatted], st1)
                     | (Raises e, st1) => (Raises e, st1)
                     end
                 end
             end
       end)
    (fun e => is_CalledProcessError e || is_JSONDecodeError e)
    (fun e => ret [text_block ("Error searching notes: " +:+ exn_str e)])
    (after st w' (search_command query)).
Proof.
  intros Hq Hs Hrc Hne. branch. argument Hq.
  unfold try_except, bind at 1. rewrite run_jxa_spec. cbv zeta.
  fold (search_command query). rewrite Hs. unfold ended, completed.
  rewrite Hrc. cbn [Z.eqb]. unfold bind, lift, ret. rewrite Hne.
  destruct (json_loads (Py.strip (stdout cp))) as [v|e]; [| reflexivity].
  destruct (negb (truthy v)); [reflexivity |].
  destruct (py_len v); [| reflexivity].
  destruct (py_iter v); reflexivity.
Qed.

(** X4. Output that does not decode: [search_notes] returns one text
    block, "Error searching notes: " and the text of the decoding error. *)
Theorem search_notes_decode_error
        (arguments : gmap string string) (query message : string)
        (st : state World) (cp : CompletedProcess) (w' : World) :
  arguments !! "query" = Some query ->
  spawn (world st) (search_command query) = (Completed cp, w') ->
  returncode cp = 0%Z ->
  Py.nonempty (Py.strip (stdout cp)) = true ->
  json_loads (Py.strip (stdout cp)) = Raises (JSONDecodeError message) ->
  run "search_notes" arguments st =
  (Returns [text_block ("Error searching notes: " +:+ message)],
   after st w' (search_command query)).
Proof.
  intros Hq Hs Hrc Hne Hj.
  rewrite (search_notes_decoded _ _ _ _ _ Hq Hs Hrc Hne).
  unfold try_except. now rewrite Hj.
Qed.

(** The loop over results that hold texts. *)
Lemma format_matches_found (ms : list pyval) (rs : list found)
      (formatted : string) (st : state World) :
  Forall2 holds ms rs ->
  format_matches formatted ms st =
  (Returns (formatted
            +:+ fold_right (fun r t => found_lines r +:+ t) EmptyString rs),
   st).
Proof.
  intros H. revert formatted.
  induction H as [|m r ms rs (Hn & Hf & Hp) _ IH]; intros formatted.
  - cbn [format_matches fold_right]. unfold ret.
    now rewrite append_empty_r.
  - cbn [format_matches fold_right]. unfold bind at 1.
    unfold format_match, bind, lift, ret. rewrite Hn, Hf, Hp.
    cbn [slice_to py_str]. rewrite IH. unfold found_lines.
    now rewrite !append_assoc.
Qed.

(** X5. A search that found something: the one text block counts the
    results, then gives each, in the order of the output, its name, its
    folder and the first hundred characters of its preview followed by
    three dots. *)
Theorem search_notes_found
        (arguments : gmap string string) (query : string)
        (st : state World) (cp : CompletedProcess) (w' : World)
        (ms : list pyval) (rs : list found) :
  arguments !! "query" = Some query ->
  spawn (world st) (search_command query) = (Completed cp, w') ->
  returncode cp = 0%Z ->
  json_loads (Py.strip (stdout cp)) = Returns (PList ms) ->
  Py.nonempty (Py.strip (stdout cp)) = true ->
  ms <> [] ->
  Forall2 holds ms rs ->
  run "search_notes" arguments st =
  (Returns [text_block (found_text query rs)],
   after st w' (search_command query)).
Proof.
  intros Hq Hs Hrc Hj Hne Hms Hrs.
  rewrite (search_notes_decoded _ _ _ _ _ Hq Hs Hrc Hne).
  unfold try_except. rewrite Hj.
  destruct ms as [|m ms]; [congruence |].
  cbn [truthy negb py_len py_iter].
  rewrite (format_matches_found _ _ _ _ Hrs).
  unfold found_text. rewrite (Forall2_length _ _ _ Hrs).
  now rewrite !append_assoc.
Qed.

(** X6. A result that is no record is not handled: when the first value
    of the decoded list lacks a field, or is no dict, or has a preview
    that cannot be cut, the call raises a [KeyError] or a [TypeError]
    and returns no block. *)
Theorem search_notes_bad_record_raises
        (arguments : gmap string string) (query : string)
        (st : state World) (cp : CompletedProcess) (w' : World)
        (m : pyval) (ms : list pyval) :
  arguments !! "query" = Some query ->
  spawn (world st) (search_command query) = (Completed cp, w') ->
  returncode cp = 0%Z ->
  Py.nonempty (Py.strip (stdout cp)) = true ->
  json_loads (Py.strip (stdout cp)) = Returns (PList (m :: ms)) ->
  is_record m = false ->
  exists e,
    run "search_notes" arguments st
    = (Raises e, after st w' (search_command query))
    /\ (e = TypeError \/ exists key, e = KeyError key).
Proof.
  intros Hq Hs Hrc Hne Hj Hm.
  rewrite (search_notes_decoded _ _ _ _ _ Hq Hs Hrc Hne).
  unfold try_except. rewrite Hj.
  cbn [truthy negb py_len py_iter format_matches].
  unfold bind at 1. unfold format_match, bind, lift, ret.
  unfold is_record in Hm.
  assert (Hget : forall v k e, getitem v k = Raises e ->
                               e = TypeError \/ exists key, e = KeyError key).
  { intros v k e. unfold getitem.
    destruct v; try (intros [= <-]; now left).
    destruct (assoc k items); [discriminate |]. intros [= <-]. eauto. }
  destruct (getitem m "name") as [n|e] eqn:Hn.
  2:{ exists e. destruct (Hget _ _ _ Hn) as [->|[k ->]]; cbn; eauto. }
  destruct (getitem m "folder") as [f|e] eqn:Hf.
  2:{ exists e. destruct (Hget _ _ _ Hf) as [->|[k ->]]; cbn; eauto. }
  destruct (getitem m "preview") as [p|e] eqn:Hp.
  2:{ exists e. destruct (Hget _ _ _ Hp) as [->|[k ->]]; cbn; eauto. }
  destruct (slice_to 100 p) as [p100|e] eqn:Hsl; [discriminate |].
  exists e. assert (e = TypeError) as ->.
  { unfold slice_to in Hsl. destruct p; congruence. }
  cbn. eauto.
Qed.

End More_properties.

(** ** The texts the gateway cuts and splits *)

Lemma length_append (a b : string) :
  String.length (a +:+ b) = String.length a + String.length b.
Proof.
  induction a as [|x a IH]; [reflexivity |].
  rewrite append_cons. cbn [String.length]. now rewrite IH.
Qed.

(** X7. The preview shown is a prefix of the preview, of at most a hundred
    characters: cutting a text gives a prefix of it that has no more
    characters than asked for. *)
Theorem take_chars_prefix_bound (n : nat) (s : string) :
  (exists rest, s = Py.take_chars n s +:+ rest)
  /\ Py.len_chars (Py.take_chars n s) <= n.
Proof.
  revert n. induction s as [|a s IH]; intros n.
  - split; [now exists EmptyString | cbn; lia].
  - cbn [Py.take_chars].
    destruct (Py.continuation a) eqn:Ha.
    + destruct (IH n) as [[rest Hr] Hb]. split.
      * exists rest. rewrite append_cons. now rewrite <- Hr.
      * cbn [Py.len_chars]. now rewrite Ha.
    + destruct n as [|k].
      * split; [now exists (String a s) | cbn; lia].
      * destruct (IH k) as [[rest Hr] Hb]. split.
        -- exists rest. rewrite append_cons. now rewrite <- Hr.
        -- cbn [Py.len_chars]. rewrite Ha. lia.
Qed.

(** X8. A preview that has no more characters than the cut keeps is shown
    whole. *)
Theorem take_chars_short (n : nat) (s : string) :
  Py.len_chars s <= n -> Py.take_chars n s = s.
Proof.
  revert n. induction s as [|a s IH]; intros n H; [reflexivity |].
  cbn [Py.take_chars Py.len_chars] in *.
  destruct (Py.continuation a).
  - now rewrite IH.
  - destruct n as [|k]; [lia |]. rewrite IH; [reflexivity | lia].
Qed.

Lemma take_chars_short_witness :
  Py.len_chars "second" <= 100 /\ Py.take_chars 100 "second" = "second".
Proof.
  assert (H : Py.len_chars "second" <= 100)
    by (change (Py.len_chars "second") with 6; lia).
  split; [exact H | exact (take_chars_short 100 "second" H)].
Defined.

(** Passing over the rest of a separator. *)
Lemma split_aux_skip (sep t cur s : string) :
  Py.split_aux sep (String.length t) cur (t +:+ s)
  = Py.split_aux sep 0 cur s.
Proof.
  induction t as [|a t IH]; [reflexivity |].
  rewrite append_cons. cbn [String.length Py.split_aux]. exact IH.
Qed.

Lemma prefix_append (p s : string) :
  String.prefix p s = true -> exists rest, s = p +:+ rest.
Proof.
  revert s. induction p as [|a p IH]; intros s H.
  - now exists s.
  - destruct s as [|b s]; [discriminate |].
    cbn [String.prefix] in H.
    destruct (ascii_dec a b) as [->|]; [| discriminate].
    destruct (IH s H) as [rest ->]. now exists rest.
Qed.

Lemma split_aux_join (sep : string) (n : nat) :
  sep <> EmptyString ->
  forall s cur, String.length s <= n ->
    Py.split_aux sep 0 cur s <> []
    /\ Py.join sep (Py.split_aux sep 0 cur s) = cur +:+ s.
Proof.
  intros Hsep. induction n as [|n IH]; intros s cur Hlen.
  - destruct s; [| cbn in Hlen; lia]. cbn. split; [discriminate |].
    now rewrite append_empty_r.
  - destruct s as [|a s].
    { cbn. split; [discriminate |]. now rewrite append_empty_r. }
    cbn [Py.split_aux].
    destruct (String.prefix sep (String a s)) eqn:Hp.
    + destruct (prefix_append _ _ Hp) as [rest Hrest].
      destruct sep as [|b t]; [congruence |].
      rewrite append_cons in Hrest. injection Hrest as -> ->.
      cbn [String.length].
      replace (S (String.length t) - 1) with (String.length t) by lia.
      rewrite split_aux_skip.
      cbn [String.length] in Hlen. rewrite length_append in Hlen.
      destruct (IH rest EmptyString ltac:(lia)) as [Hne Hj].
      split; [discriminate |].
      cbn [Py.join].
      destruct (Py.split_aux (String b t) 0 EmptyString rest) as [|x l] eqn:E;
        [congruence |].
      rewrite Hj. cbn [String.append]. now rewrite append_cons.
    + cbn [String.length] in Hlen.
      destruct (IH s (cur +:+ String a EmptyString) ltac:(lia)) as [Hne Hj].
      split; [exact Hne |].
      rewrite Hj. now rewrite append_assoc.
Qed.

(** X9. Splitting loses nothing: for a separator that is not empty, the
    pieces of a text joined again by the separator are the text. *)
Theorem split_join (s sep : string) (l : list string) :
  Py.split s sep = Returns l -> Py.join sep l = s.
Proof.
  unfold Py.split. intros H.
  destruct sep as [|b t] eqn:E; [discriminate |].
  injection H as <-.
  destruct (split_aux_join (String b t) (String.length s)
                           ltac:(discriminate) s EmptyString (le_n _))
    as [_ Hj].
  exact Hj.
Qed.

Lemma split_join_witness :
  Py.split "a, |name|:b" ", |name|:" = Returns ["a"; "b"]
  /\ Py.join ", |name|:" ["a"; "b"] = "a, |name|:b".
Proof.
  split; [reflexivity |].
  apply (split_join "a, |name|:b" ", |name|:" ["a"; "b"]). reflexivity.
Defined.

(** The loop that collects the notes, with its list so far. *)
Lemma collect_notes_from (lines notes : list string) :
  fold_left
    (fun notes line =>
       if Py.nonempty (Py.strip line) then (notes ++ [Py.strip line])%list
       else notes)
    lines notes
  = (notes ++ List.filter Py.nonempty (map Py.strip lines))%list.
Proof.
  revert notes. induction lines as [|line lines IH]; intros notes.
  - cbn. now rewrite app_nil_r.
  - cbn [fold_left map List.filter]. rewrite IH.
    destruct (Py.nonempty (Py.strip line)); [| reflexivity].
    now rewrite <- app_assoc.
Qed.

(** X10. The loop of [list_notes] over the pieces keeps, in order, the
    stripped pieces that are not empty; no collected note is empty. *)
Theorem collect_notes_stripped (lines : list string) :
  collect_notes lines = List.filter Py.nonempty (map Py.strip lines)
  /\ Forall (fun note => Py.nonempty note = true) (collect_notes lines).
Proof.
  assert (H : collect_notes lines
              = List.filter Py.nonempty (map Py.strip lines))
    by apply (collect_notes_from lines []).
  split; [exact H |].
  rewrite H. apply Forall_forall. intros x Hx.
  apply list_elem_of_In, filter_In in Hx. tauto.
Qed.

(** ** Which texts a literal of a script can hold *)

Lemma literal_length_upto (n : nat) (s v rest : string) :
  String.length s <= n ->
  Notes.literal s = Some (v, rest) ->
  S (String.length v + String.length rest) <= String.length s.
Proof.
  revert s v rest. induction n as [|n IH]; intros s v rest Hn H.
  - destruct s; [discriminate | cbn in Hn; lia].
  - destruct s as [|a s1]; [discriminate |].
    cbn [String.length] in Hn. cbn [Notes.literal] in H.
    destruct (Ascii.eqb a dq_char).
    + injection H as <- <-. cbn. lia.
    + destruct (Ascii.eqb a bs_char).
      * destruct s1 as [|b s2]; [discriminate |].
        cbn [String.length] in Hn.
        destruct (Notes.unescape b); [| discriminate].
        destruct (Notes.literal s2) as [[v' r']|] eqn:E; [| discriminate].
        injection H as <- <-.
        apply IH in E; [| lia]. cbn [String.length]. lia.
      * destruct (Notes.literal s1) as [[v' r']|] eqn:E; [| discriminate].
        injection H as <- <-.
        apply IH in E; [| lia]. cbn [String.length]. lia.
Qed.

(** A literal that spends one character on each character it denotes and
    one on its closing quote holds a plain text, written as it is. *)
Lemma literal_exact (s v rest : string) :
  Notes.literal s = Some (v, rest) ->
  String.length s = S (String.length v + String.length rest) ->
  s = v +:+ dq +:+ rest /\ Notes.plain v = true.
Proof.
  revert v rest. induction s as [|a s1 IH]; intros v rest H Hlen;
    [discriminate |].
  cbn [Notes.literal] in H.
  destruct (Ascii.eqb a dq_char) eqn:Hq.
  - injection H as <- <-. apply Ascii.eqb_eq in Hq. subst a.
    split; reflexivity.
  - destruct (Ascii.eqb a bs_char) eqn:Hb.
    + exfalso. destruct s1 as [|b s2]; [discriminate |].
      destruct (Notes.unescape b); [| discriminate].
      destruct (Notes.literal s2) as [[v' r']|] eqn:E; [| discriminate].
      injection H as <- <-.
      apply (literal_length_upto (String.length s2)) in E; [| lia].
      cbn [String.length] in Hlen. lia.
    + destruct (Notes.literal s1) as [[v' r']|] eqn:E; [| discriminate].
      injection H as <- <-. cbn [String.length] in Hlen.
      destruct (IH v' r' eq_refl ltac:(lia)) as [-> Hp].
      split; [now rewrite append_cons |].
      cbn [Notes.plain]. now rewrite Hq, Hb, Hp.
Qed.

(** X12. The names [read_note] can look up are the plain ones: the
    rendered script keeps the shape of the template, with its literal
    denoting the name, exactly when the name has no quote and no
    backslash. *)
Theorem read_note_script_safe_iff_plain (note_name : string) :
  Notes.match_shape Notes.read_note_shape (read_note_script note_name)
  = Some [note_name]
  <-> Notes.plain note_name = true.
Proof.
  split; [| apply read_note_script_shape].
  rewrite read_note_script_cut. unfold Notes.read_note_shape.
  cbn [Notes.match_shape]. rewrite strip_prefix_app.
  destruct (Notes.literal (note_name +:+ dq +:+ Notes.read_note_after))
    as [[v s2]|] eqn:E; [| discriminate].
  destruct (String.eqb_spec s2 Notes.read_note_after) as [->|];
    [| discriminate].
  intros [= ->].
  apply literal_exact in E; [tauto |].
  rewrite !length_append. cbn [String.length dq ch]. lia.
Qed.

(** X13. Rendering the script of [create_note] loses nothing: for plain
    folders, and names and bodies without backslash, two calls that
    render the same script were given the same folder, name and body. *)
Theorem create_note_script_injective (f1 n1 b1 f2 n2 b2 : string) :
  Notes.plain f1 = true -> Notes.plain f2 = true ->
  Notes.no_backslash n1 = true -> Notes.no_backslash n2 = true ->
  Notes.no_backslash b1 = true -> Notes.no_backslash b2 = true ->
  create_note_script f1 (escape_quotes n1) (escape_quotes b1)
  = create_note_script f2 (escape_quotes n2) (escape_quotes b2) ->
  f1 = f2 /\ n1 = n2 /\ b1 = b2.
Proof.
  intros Hf1 Hf2 Hn1 Hn2 Hb1 Hb2 H.
  pose proof (create_note_script_shape f1 n1 b1 Hf1 Hn1 Hb1) as S1.
  pose proof (create_note_script_shape f2 n2 b2 Hf2 Hn2 Hb2) as S2.
  rewrite H, S2 in S1. injection S1 as -> -> ->. tauto.
Qed.

Lemma create_note_script_injective_witness :
  create_note_script "Notes" (escape_quotes Sample.quoted_name)
                     (escape_quotes "C")
  = create_note_script "Notes" (escape_quotes Sample.quoted_name)
                       (escape_quotes "C")
  /\ ("Notes" = "Notes" /\ Sample.quoted_name = Sample.quoted_name
      /\ "C" = "C").
Proof.
  split; [reflexivity |].
  exact (create_note_script_injective
           "Notes" Sample.quoted_name "C" "Notes" Sample.quoted_name "C"
           eq_refl eq_refl eq_refl eq_refl eq_refl eq_refl eq_refl).
Defined.

Lemma escape_quotes_cons (a : ascii) (s : string) :
  escape_quotes (String a s)
  = if Ascii.eqb a dq_char
    then String bs_char (String dq_char (escape_quotes s))
    else String a (escape_quotes s).
Proof. unfold escape_quotes. cbn [Py.replace_char]. now destruct (Ascii.eqb a dq_char). Qed.

Lemma escape_quotes_head (s rest : string) :
  escape_quotes s <> String dq_char rest.
Proof.
  destruct s as [|a s]; [discriminate |].
  rewrite escape_quotes_cons.
  destruct (Ascii.eqb a dq_char) eqn:E; [discriminate |].
  intros [= -> _]. now rewrite Ascii.eqb_refl in E.
Qed.

(** X14. Escaping the quotes loses nothing: two texts with the same
    escaped form are the same text. *)
Theorem escape_quotes_injective (s1 s2 : string) :
  escape_quotes s1 = escape_quotes s2 -> s1 = s2.
Proof.
  revert s2. induction s1 as [|a s1 IH]; intros s2 H.
  - destruct s2 as [|b s2]; [reflexivity |].
    rewrite escape_quotes_cons in H.
    destruct (Ascii.eqb b dq_char); discriminate.
  - destruct s2 as [|b s2].
    + rewrite escape_quotes_cons in H.
      destruct (Ascii.eqb a dq_char); discriminate.
    + rewrite !escape_quotes_cons in H.
      destruct (Ascii.eqb a dq_char) eqn:Ea;
        destruct (Ascii.eqb b dq_char) eqn:Eb.
      * apply Ascii.eqb_eq in Ea, Eb. subst a b.
        injection H as H. now rewrite (IH _ H).
      * injection H as _ H. symmetry in H.
        now apply escape_quotes_head in H.
      * injection H as _ H. now apply escape_quotes_head in H.
      * injection H as -> H. now rewrite (IH _ H).
Qed.

Lemma escape_quotes_injective_witness :
  escape_quotes Sample.quoted_name = escape_quotes Sample.quoted_name
  /\ Sample.quoted_name = Sample.quoted_name.
Proof.
  split; [reflexivity |].
  exact (escape_quotes_injective Sample.quoted_name Sample.quoted_name
                                 eq_refl).
Defined.

(** ** Editing, then reading *)

Lemma edit_note_script_cut (note_name note_body_escaped : string) :
  edit_note_script note_name note_body_escaped =
  Edit.edit_note_before +:+ note_name +:+ dq +:+ Edit.edit_note_middle
  +:+ note_body_escaped +:+ dq +:+ Edit.edit_note_after.
Proof.
  cbv [edit_note_script Edit.edit_note_before Edit.edit_note_middle
       Edit.edit_note_after script_lines Py.join app].
  rewrite !append_assoc. reflexivity.
Qed.

Lemma run_edit_note_script (note_name note_body : string) (s : Notes.store) :
  Notes.plain note_name = true ->
  Notes.no_backslash note_body = true ->
  Edit.run_script (edit_note_script note_name (escape_quotes note_body)) s
  = Some (Edit.edit_note_applescript note_name note_body s).
Proof.
  intros Hn Hb. unfold Edit.run_script, Edit.edit_note_shape.
  rewrite edit_note_script_cut.
  rewrite (match_shape_step _ _ _ note_name) by now apply literal_plain.
  rewrite (match_shape_step _ _ _ note_body) by now apply literal_escaped.
  now rewrite match_shape_last.
Qed.

(** Setting the body of the first note of a name, seen on the notes of a
    folder list and of a store laid end to end. *)
Lemma set_first_app (note_name note_body : string) (a b : list Notes.note) :
  Edit.set_first note_name note_body (a ++ b)%list
  = match Edit.set_first note_name note_body a with
    | Some a' => Some (a' ++ b)%list
    | None => option_map (app a) (Edit.set_first note_name note_body b)
    end.
Proof.
  induction a as [|n a IH].
  - cbn. now destruct (Edit.set_first note_name note_body b).
  - cbn [app Edit.set_first].
    destruct (String.eqb (Notes.title n) note_name); [reflexivity |].
    rewrite IH.
    destruct (Edit.set_first note_name note_body a); [reflexivity |].
    now destruct (Edit.set_first note_name note_body b).
Qed.

Lemma set_first_folder_notes (note_name note_body : string)
      (fs : list Notes.folder) :
  option_map (flat_map Notes.notes)
             (Edit.set_first_folder note_name note_body fs)
  = Edit.set_first note_name note_body (flat_map Notes.notes fs).
Proof.
  induction fs as [|f fs IH]; [reflexivity |].
  cbn [Edit.set_first_folder flat_map]. rewrite set_first_app.
  destruct (Edit.set_first note_name note_body (Notes.notes f));
    [reflexivity |].
  rewrite <- IH.
  now destruct (Edit.set_first_folder note_name note_body fs).
Qed.

Lemma set_first_account_notes (note_name note_body : string)
      (s : Notes.store) :
  option_map Notes.every_note
             (Edit.set_first_account note_name note_body s)
  = Edit.set_first note_name note_body (Notes.every_note s).
Proof.
  unfold Notes.every_note.
  induction s as [|a s IH]; [reflexivity |].
  cbn [Edit.set_first_account flat_map]. rewrite set_first_app.
  rewrite <- set_first_folder_notes.
  destruct (Edit.set_first_folder note_name note_body (Notes.folders a));
    [reflexivity |].
  cbn [option_map]. rewrite <- IH.
  now destruct (Edit.set_first_account note_name note_body s).
Qed.

(** After the body is set, the first note of that name has it. *)
Lemma set_first_find (note_name note_body : string) (ns : list Notes.note) :
  match Edit.set_first note_name note_body ns with
  | Some ns' =>
      exists n, List.find (fun n => String.eqb (Notes.title n) note_name) ns'
                = Some n
                /\ Notes.body n = note_body
  | None =>
      List.find (fun n => String.eqb (Notes.title n) note_name) ns = None
  end.
Proof.
  induction ns as [|n ns IH]; [reflexivity |].
  cbn [Edit.set_first List.find].
  destruct (String.eqb (Notes.title n) note_name) eqn:E.
  - cbn [List.find Notes.title]. rewrite E. eauto.
  - destruct (Edit.set_first note_name note_body ns) as [ns'|];
      cbn [option_map List.find]; now rewrite ?E.
Qed.

Section Edit_properties.

Context {World : Type}.
Variable spawn : World -> list string -> run_result * World.
Variable json_loads : string -> outcome pyval.
Variable view : World -> Notes.store.
Variable naming : string -> string -> string.

(** X15. Editing a note and then reading it gives the new body: with an
    interpreter that agrees with the two scripts, when a note of that
    name exists, [edit_note] answers "Note updated: " and the name, and
    [read_note] on the state it leaves answers with the body just set. *)
Theorem edit_then_read
        (edit_arguments read_arguments : gmap string string)
        (note_name note_body : string) (st : state World) :
  edit_arguments !! "name" = Some note_name ->
  edit_arguments !! "body" = Some note_body ->
  read_arguments !! "name" = Some note_name ->
  Notes.plain note_name = true ->
  Notes.no_backslash note_body = true ->
  List.find (fun n => String.eqb (Notes.title n) note_name)
            (Notes.every_note (view (world st))) <> None ->
  Edit.agrees spawn view (world st)
              (edit_note_script note_name (escape_quotes note_body)) ->
  agrees spawn view naming
         (world (snd (call_tool spawn json_loads "edit_note"
                                edit_arguments st)))
         (read_note_script note_name) ->
  exists st1 st2,
    call_tool spawn json_loads "edit_note" edit_arguments st
    = (Returns [text_block (Py.strip ("Note updated: " +:+ note_name))], st1)
    /\ call_tool spawn json_loads "read_note" read_arguments st1
       = (Returns [text_block ("Note: " +:+ note_name +:+ nl +:+ nl
                               +:+ Py.strip note_body)], st2).
Proof.
  intros He Hb Hr Hp Hnb Hex Hag1 Hag2.
  rewrite (edit_note_run _ _ _ _ _ _ He Hb) in *. cbv zeta in *.
  unfold Edit.agrees in Hag1. unfold answer in *.
  rewrite (run_edit_note_script _ _ _ Hp Hnb) in Hag1.
  unfold Edit.edit_note_applescript in Hag1.
  rewrite <- filter_head in Hex.
  destruct (spawn (world st) _) as [[cp|e1] w1].
  2:{ destruct (List.filter _ _); contradiction. }
  destruct (List.filter _ (Notes.every_note (view (world st))))
    as [|theNote others] eqn:Hf; [congruence |].
  destruct Hag1 as (Hv & Hrc & Hout).
  assert (Ht : Notes.title theNote = note_name).
  { assert (Hin : In theNote
                     (List.filter
                        (fun n => String.eqb (Notes.title n) note_name)
                        (Notes.every_note (view (world st)))))
      by (rewrite Hf; now left).
    apply filter_In in Hin as [_ Hin]. now apply String.eqb_eq. }
  rewrite Ht in Hout. rewrite Hrc, Hout. cbn [Z.eqb].
  cbn [snd after world] in Hag2.
  exists (after st w1
            (applescript_command
               (edit_note_script note_name (escape_quotes note_body)))).
  rewrite (read_note_run _ _ _ _ _ Hr). cbv zeta.
  unfold agrees in Hag2. cbn [after world].
  rewrite (run_read_note_script _ _ _ Hp) in Hag2.
  unfold Notes.read_note_applescript in Hag2.
  pose proof (set_first_account_notes note_name note_body (view (world st)))
    as Hset.
  pose proof (set_first_find note_name note_body
                             (Notes.every_note (view (world st)))) as Hfind.
  rewrite <- Hset in Hfind.
  destruct (Edit.set_first_account note_name note_body (view (world st)))
    as [s'|]; cbn [option_map] in *.
  - destruct Hfind as (n & Hn & Hbody).
    change (view w1 = s') in Hv. rewrite Hv in Hag2.
    rewrite <- filter_head in Hn. unfold answer.
    destruct (spawn w1 _) as [[cp2|e2] w2].
    2:{ destruct (List.filter _ (Notes.every_note s')); contradiction. }
    destruct (List.filter _ (Notes.every_note s')) as [|n' others'];
      [discriminate |].
    injection Hn as ->. destruct Hag2 as (_ & Hrc2 & Hout2).
    rewrite Hrc2, Hout2, Hbody. eexists. split; reflexivity.
  - exfalso. rewrite <- filter_head, Hf in Hfind. discriminate.
Qed.

(** X16. Editing a note that does not exist: with an interpreter that
    agrees with the script, when no note has that name the response is
    the one text "Note not found" and the application is left as it
    was. *)
Theorem edit_note_not_found
        (arguments : gmap string string) (note_name note_body : string)
        (st : state World) :
  arguments !! "name" = Some note_name ->
  arguments !! "body" = Some note_body ->
  Notes.plain note_name = true ->
  Notes.no_backslash note_body = true ->
  List.find (fun n => String.eqb (Notes.title n) note_name)
            (Notes.every_note (view (world st))) = None ->
  Edit.agrees spawn view (world st)
              (edit_note_script note_name (escape_quotes note_body)) ->
  exists st',
    call_tool spawn json_loads "edit_note" arguments st
    = (Returns [text_block "Note not found"], st')
    /\ view (world st') = view (world st).
Proof.
  intros He Hb Hp Hnb Hno Hag.
  rewrite (edit_note_run _ _ _ _ _ _ He Hb). cbv zeta.
  unfold Edit.agrees in Hag. unfold answer.
  rewrite (run_edit_note_script _ _ _ Hp Hnb) in Hag.
  unfold Edit.edit_note_applescript in Hag.
  rewrite <- filter_head in Hno.
  destruct (spawn (world st) _) as [[cp|e1] w1].
  2:{ destruct (List.filter _ _); contradiction. }
  destruct (List.filter _ (Notes.every_note (view (world st))));
    [| discriminate].
  destruct Hag as (Hv & Hrc & Hout).
  rewrite Hrc, Hout. cbn [Z.eqb].
  eexists. split; [reflexivity | exact Hv].
Qed.

End Edit_properties.

(** ** The theorems above at concrete inputs *)

Lemma missing_required_raises_witness :
  let arguments : gmap string string := {["name" := "T"]} in
  ~ supplies_required "create_note" arguments
  /\ exists key,
       In key (required_of "create_note")
       /\ arguments !! key = None
       /\ call_tool Sample.notes_spawn Sample.decode "create_note" arguments
                    (Sample.start Sample.library)
          = (Raises (KeyError key), Sample.start Sample.library).
Proof.
  cbv zeta.
  assert (H : ~ supplies_required "create_note"
                  ({["name" := "T"]} : gmap string string)).
  { unfold supplies_required.
    change (required_of "create_note") with ["name"; "body"].
    intros H. inversion H as [|? ? _ H']. inversion H' as [|? ? [v Hv] _].
    discriminate Hv. }
  split; [exact H |].
  exact (missing_required_raises Sample.notes_spawn Sample.decode
                                 "create_note" {["name" := "T"]}
                                 (Sample.start Sample.library) H).
Defined.

Lemma reads_declared_parameters_only_witness :
  let arguments1 : gmap string string := {["name" := "Ideas"]} in
  let arguments2 : gmap string string :=
    <["folder" := "Work"]> {["name" := "Ideas"]} in
  agree_on (declared_of "read_note") arguments1 arguments2
  /\ call_tool Sample.notes_spawn Sample.decode "read_note" arguments1
               (Sample.start Sample.library)
     = call_tool Sample.notes_spawn Sample.decode "read_note" arguments2
                 (Sample.start Sample.library).
Proof.
  cbv zeta.
  assert (H : agree_on (declared_of "read_note")
                ({["name" := "Ideas"]} : gmap string string)
                (<["folder" := "Work"]> {["name" := "Ideas"]})).
  { unfold agree_on. change (declared_of "read_note") with ["name"].
    constructor; [reflexivity | constructor]. }
  split; [exact H |].
  exact (reads_declared_parameters_only
           Sample.notes_spawn Sample.decode "read_note" _ _
           (Sample.start Sample.library) H).
Defined.

Lemma search_notes_decode_error_witness :
  let arguments : gmap string string := {["query" := "x"]} in
  Sample.decode (Py.strip ("oops" +:+ nl))
  = Raises (JSONDecodeError "Expecting value: line 1 column 1 (char 0)")
  /\ call_tool More.garbled_spawn Sample.decode "search_notes" arguments
               (Sample.start tt)
     = (Returns
          [text_block
             "Error searching notes: Expecting value: line 1 column 1 (char 0)"],
        after (Sample.start tt) tt (search_command "x")).
Proof.
  cbv zeta. split; [reflexivity |].
  exact (search_notes_decode_error
           More.garbled_spawn Sample.decode {["query" := "x"]} "x"
           "Expecting value: line 1 column 1 (char 0)" (Sample.start tt)
           {| returncode := 0; stdout := "oops" +:+ nl;
              stderr := EmptyString |} tt
           eq_refl eq_refl eq_refl eq_refl eq_refl).
Defined.

Lemma search_notes_found_witness :
  let arguments : gmap string string := {["query" := "Ideas"]} in
  let r := {| found_name := "Ideas"; found_folder := "Work";
              found_preview := "second" |} in
  More.one_decode (Py.strip (More.one_result +:+ nl))
  = Returns (PList [PDict [("name", PStr "Ideas"); ("folder", PStr "Work");
                           ("preview", PStr "second")]])
  /\ call_tool More.one_spawn More.one_decode "search_notes" arguments
               (Sample.start tt)
     = (Returns [text_block (found_text "Ideas" [r])],
        after (Sample.start tt) tt (search_command "Ideas")).
Proof.
  cbv zeta.
  assert (Hd : More.one_decode (Py.strip (More.one_result +:+ nl))
               = Returns (PList [PDict [("name", PStr "Ideas");
                                        ("folder", PStr "Work");
                                        ("preview", PStr "second")]]))
    by (vm_compute; reflexivity).
  split; [exact Hd |].
  refine (search_notes_found
            More.one_spawn More.one_decode {["query" := "Ideas"]} "Ideas"
            (Sample.start tt)
            {| returncode := 0; stdout := More.one_result +:+ nl;
               stderr := EmptyString |} tt
            [PDict [("name", PStr "Ideas"); ("folder", PStr "Work");
                    ("preview", PStr "second")]]
            [{| found_name := "Ideas"; found_folder := "Work";
                found_preview := "second" |}]
            eq_refl eq_refl eq_refl Hd _ _ _).
  - vm_compute. reflexivity.
  - discriminate.
  - constructor; [| constructor]. repeat split; reflexivity.
Defined.

Lemma search_notes_bad_record_raises_witness :
  let arguments : gmap string string := {["query" := "x"]} in
  is_record (PInt 1) = false
  /\ exists e,
       call_tool More.garbled_spawn More.number_decode "search_notes"
                 arguments (Sample.start tt)
       = (Raises e, after (Sample.start tt) tt (search_command "x"))
       /\ (e = TypeError \/ exists key, e = KeyError key).
Proof.
  cbv zeta. split; [reflexivity |].
  exact (search_notes_bad_record_raises
           More.garbled_spawn More.number_decode {["query" := "x"]} "x"
           (Sample.start tt)
           {| returncode := 0; stdout := "oops" +:+ nl;
              stderr := EmptyString |} tt (PInt 1) []
           eq_refl eq_refl eq_refl eq_refl eq_refl eq_refl).
Defined.

Lemma edit_then_read_witness :
  let edit_arguments : gmap string string :=
    <["name" := "Ideas"]> {["body" := "third"]} in
  let read_arguments : gmap string string := {["name" := "Ideas"]} in
  Edit.agrees Edit.notes_spawn (fun w => w) Sample.library
              (edit_note_script "Ideas" (escape_quotes "third"))
  /\ exists st1 st2,
       call_tool Edit.notes_spawn Sample.decode "edit_note" edit_arguments
                 (Sample.start Sample.library)
       = (Returns [text_block (Py.strip "Note updated: Ideas")], st1)
       /\ call_tool Edit.notes_spawn Sample.decode "read_note" read_arguments
                    st1
          = (Returns [text_block ("Note: Ideas" +:+ nl +:+ nl
                                  +:+ Py.strip "third")], st2).
Proof.
  cbv zeta.
  assert (H1 : Edit.agrees Edit.notes_spawn (fun w => w) Sample.library
                 (edit_note_script "Ideas" (escape_quotes "third")))
    by (vm_compute; repeat split; reflexivity).
  split; [exact H1 |].
  refine (edit_then_read
            Edit.notes_spawn Sample.decode (fun w => w) Sample.naming
            (<["name" := "Ideas"]> {["body" := "third"]})
            {["name" := "Ideas"]} "Ideas" "third"
            (Sample.start Sample.library)
            eq_refl eq_refl eq_refl eq_refl eq_refl _ H1 _).
  - vm_compute. discriminate.
  - vm_compute. repeat split; reflexivity.
Defined.

Lemma edit_note_not_found_witness :
  let arguments : gmap string string :=
    <["name" := "Plans"]> {["body" := "third"]} in
  Edit.agrees Edit.notes_spawn (fun w => w) Sample.library
              (edit_note_script "Plans" (escape_quotes "third"))
  /\ exists st',
       call_tool Edit.notes_spawn Sample.decode "edit_note" arguments
                 (Sample.start Sample.library)
       = (Returns [text_block "Note not found"], st')
       /\ world st' = Sample.library.
Proof.
  cbv zeta.
  assert (H1 : Edit.agrees Edit.notes_spawn (fun w => w) Sample.library
                 (edit_note_script "Plans" (escape_quotes "third")))
    by (vm_compute; repeat split; reflexivity).
  split; [exact H1 |].
  exact (edit_note_not_found
           Edit.notes_spawn Sample.decode (fun w => w)
           (<["name" := "Plans"]> {["body" := "third"]})
           "Plans" "third" (Sample.start Sample.library)
           eq_refl eq_refl eq_refl eq_refl eq_refl H1).
Defined.
